(** * Simple-POS: the invoice format registry and auto-layout engine

    A shallow embedding of [invoice_formats.py] (the [BillSize] catalogue,
    [BillFormatRegistry], [AutoLayoutEngine] and [ThermalOptimizer]) and the
    properties of it that the specification states.

    Conventions of the embedding.
    - A Python [int] is a [Z].
    - A Python [float] is modelled twice.  In the registry's tables, the
      margin checks, the row heights and the batch sizes it is a [Q]:
      arithmetic and comparisons are exact, and rounding to double
      precision is not modelled.  The float expressions of the source
      multiply by one of the literals 0.45, 0.6, 0.85 or divide by 2.5, 5
      or 7; [int(...)] is truncation toward zero ([py_int]); [math.sqrt] is
      kept symbolic ([dist]).  Where the answer of the code depends on the
      rounding (the distances of [find_closest_size] and the threshold of
      [needs_pagination]) the same functions are written a second time, in
      module [Floating], over an interface of float operations whose
      instance [binary64] is the kernel's IEEE 754 double.
    - A Python [str] is a list of code points ([str]); [len] counts code
      points.  ASCII literals of the source are written [lit "..."].
    - A method that can raise returns a [result]. *)

From Stdlib Require Import ZArith QArith List String Ascii Bool Lia.
From Stdlib Require Import DecimalString.
From Stdlib Require Import Qround Reals Qreals.
From Stdlib Require Floats Uint63.
Import ListNotations.

Local Open Scope Z_scope.

(** ** Python primitives used by the module *)

Module Py.

Definition char := N.
Definition str := list char.

Fixpoint lit (s : string) : str :=
  match s with
  | EmptyString => []
  | String a rest => N_of_ascii a :: lit rest
  end.

Definition len {A} (l : list A) : Z := Z.of_nat (List.length l).

(** A slice bound, as Python normalises it against the length [n]. *)
Definition clamp_index (n i : Z) : Z :=
  if i <? 0 then Z.max (n + i) 0 else Z.min i n.

(** [l[lo:hi]] *)
Definition slice {A} (lo hi : Z) (l : list A) : list A :=
  let lo' := clamp_index (len l) lo in
  let hi' := clamp_index (len l) hi in
  firstn (Z.to_nat (hi' - lo')) (skipn (Z.to_nat lo') l).

(** [l[:hi]] *)
Definition slice_to {A} (hi : Z) (l : list A) : list A := slice 0 hi l.

(** [c * n] for a one-character string [c] *)
Definition str_mul (c : char) (n : Z) : str := repeat c (Z.to_nat n).

(** [sep.join(parts)] *)
Fixpoint join (sep : str) (parts : list str) : str :=
  match parts with
  | [] => []
  | p :: rest =>
      match rest with
      | [] => p
      | _ :: _ => p ++ sep ++ join sep rest
      end
  end.

(** [str.isspace] on one code point. *)
Definition is_space (c : char) : bool :=
  ((9 <=? c) && (c <=? 13) || (28 <=? c) && (c <=? 32)
   || (c =? 133) || (c =? 160) || (c =? 5760)
   || (8192 <=? c) && (c <=? 8202)
   || (c =? 8232) || (c =? 8233) || (c =? 8239) || (c =? 8287)
   || (c =? 12288))%N.

(** [s.split()]: the maximal runs of non-space characters, in order.
    [cur] is the run being read. *)
Fixpoint split_from (cur : str) (s : str) : list str :=
  match s with
  | [] => match cur with [] => [] | _ :: _ => [cur] end
  | c :: rest =>
      if is_space c then
        match cur with
        | [] => split_from [] rest
        | _ :: _ => cur :: split_from [] rest
        end
      else split_from (cur ++ [c]) rest
  end.

Definition split (s : str) : list str := split_from [] s.

(** [int(x)] of a float: truncation toward zero. *)
Definition py_int (x : Q) : Z := Z.quot (Qnum x) (Zpos (Qden x)).

Definition Qltb (x y : Q) : bool := negb (Qle_bool y x).

Definition str_eqb (a b : str) : bool :=
  if list_eq_dec N.eq_dec a b then true else false.

Fixpoint starts_with (prefix s : str) : bool :=
  match prefix, s with
  | [], _ => true
  | _ :: _, [] => false
  | a :: prefix', b :: s' => (a =? b)%N && starts_with prefix' s'
  end.

(** [needle in hay] *)
Fixpoint contains (needle hay : str) : bool :=
  starts_with needle hay
  || match hay with
     | [] => false
     | _ :: rest => contains needle rest
     end.

(** [range(0, stop, step)] for [step > 0]; [fuel] bounds the number of
    elements, and [stop] of them are always enough. *)
Fixpoint range_from (fuel : nat) (i stop step : Z) : list Z :=
  match fuel with
  | O => []
  | S fuel' =>
      if i <? stop then i :: range_from fuel' (i + step) stop step else []
  end.

Inductive exn := IndexError | ValueError | KeyError | OverflowError.

Inductive result (A : Type) :=
| Ok (a : A)
| Raise (e : exn).
Arguments Ok {A} a.
Arguments Raise {A} e.

(** [range(0, stop, step)]: a zero step raises, a negative one is empty
    for [stop >= 0]. *)
Definition range0 (stop step : Z) : result (list Z) :=
  if step =? 0 then Raise ValueError
  else if step <? 0 then Ok []
  else Ok (range_from (Z.to_nat stop) 0 stop step).

(** A dictionary with string keys, in insertion order. *)
Definition dict (V : Type) := list (str * V).

Fixpoint dict_lookup {V} (d : dict V) (key : str) : option V :=
  match d with
  | [] => None
  | (k, v) :: rest => if str_eqb key k then Some v else dict_lookup rest key
  end.

(** [d.get(key, default)] *)
Definition dict_get {V} (d : dict V) (key : str) (default : V) : V :=
  match dict_lookup d key with
  | Some v => v
  | None => default
  end.

(** [d[key]] *)
Definition dict_index {V} (d : dict V) (key : str) : result V :=
  match dict_lookup d key with
  | Some v => Ok v
  | None => Raise KeyError
  end.

End Py.
Import Py.

(** ** [ThermalOptimizer] *)

Module ThermalOptimizer.

Definition optimize_for_thermal (text : str) (width_chars : Z) : str :=
  if len text <=? width_chars then text
  else if 3 <? width_chars then slice_to (width_chars - 3) text ++ lit "..."
  else slice_to width_chars text.

Definition format_thermal_line (left right : str) (width : Z) : str :=
  let padding := width - len left - len right in
  let '(left', right', padding') :=
    if padding <? 0 then
      let available := width - 3 in
      let left_chars := py_int (inject_Z available * (6 # 10)) in
      let right_chars := available - left_chars in
      let left1 := optimize_for_thermal left left_chars in
      let right1 := optimize_for_thermal right right_chars in
      (left1, right1, width - len left1 - len right1)
    else (left, right, padding) in
  left' ++ str_mul 32%N (Z.max padding' 1) ++ right'.

Definition create_thermal_separator (width : Z) (c : char) : str :=
  str_mul c width.

Definition center_text (text : str) (width : Z) : str :=
  if width <=? len text then optimize_for_thermal text width
  else
    let padding := (width - len text) / 2 in
    str_mul 32%N padding ++ text.

End ThermalOptimizer.

(** ** The format catalogue *)

Inductive BillSize :=
| A5 | A4 | A3
| HALF_LETTER | LETTER | LEGAL
| THERMAL_57 | THERMAL_58 | THERMAL_76 | THERMAL_80
| QUARTER_LETTER | LONG_STRIP | CASH_RECEIPT.

Scheme Equality for BillSize.

Inductive LayoutStyle := CLASSIC | MINIMAL | COMPACT | DETAILED.

Scheme Equality for LayoutStyle.

Module BillSizeData.

Definition display_name (s : BillSize) : str :=
  match s with
  | A5 => lit "A5"
  | A4 => lit "A4"
  | A3 => lit "A3"
  | HALF_LETTER => lit "Half Letter"
  | LETTER => lit "Letter"
  | LEGAL => lit "Legal"
  | THERMAL_57 => lit "57mm Thermal"
  | THERMAL_58 => lit "58mm Thermal"
  | THERMAL_76 => lit "76mm Thermal"
  | THERMAL_80 => lit "80mm Thermal"
  | QUARTER_LETTER => 188%N :: lit "-Letter Strip"
  | LONG_STRIP => lit "Long Strip"
  | CASH_RECEIPT => lit "Cash Receipt"
  end.

Definition width_mm (s : BillSize) : Z :=
  match s with
  | A5 => 148 | A4 => 210 | A3 => 297
  | HALF_LETTER => 140 | LETTER => 216 | LEGAL => 216
  | THERMAL_57 => 57 | THERMAL_58 => 58 | THERMAL_76 => 76 | THERMAL_80 => 80
  | QUARTER_LETTER => 108 | LONG_STRIP => 70 | CASH_RECEIPT => 109
  end.

(** 0 for continuous thermal *)
Definition height_mm (s : BillSize) : Z :=
  match s with
  | A5 => 210 | A4 => 297 | A3 => 420
  | HALF_LETTER => 216 | LETTER => 279 | LEGAL => 356
  | THERMAL_57 | THERMAL_58 | THERMAL_76 | THERMAL_80 => 0
  | QUARTER_LETTER => 216 | LONG_STRIP => 194 | CASH_RECEIPT => 189
  end.

Definition category (s : BillSize) : str :=
  match s with
  | THERMAL_57 | THERMAL_58 | THERMAL_76 | THERMAL_80 => lit "thermal"
  | _ => lit "paper"
  end.

Definition is_thermal (s : BillSize) : bool :=
  str_eqb (category s) (lit "thermal").

Definition is_continuous (s : BillSize) : bool := height_mm s =? 0.

(** [list(BillSize)]: the members in definition order. *)
Definition all : list BillSize :=
  [A5; A4; A3; HALF_LETTER; LETTER; LEGAL;
   THERMAL_57; THERMAL_58; THERMAL_76; THERMAL_80;
   QUARTER_LETTER; LONG_STRIP; CASH_RECEIPT].

(** [size in [...]] *)
Definition size_in (s : BillSize) (l : list BillSize) : bool :=
  existsb (BillSize_beq s) l.

End BillSizeData.
Import BillSizeData.

Record Margins := mkMargins {
  top : Q;
  right : Q;
  bottom : Q;
  left : Q
}.

Definition horizontal_total (m : Margins) : Q := left m + right m.
Definition vertical_total (m : Margins) : Q := top m + bottom m.

Record FontSettings := mkFontSettings {
  base_size : Z;
  title_size : Z;
  header_size : Z;
  item_size : Z;
  footer_size : Z;
  mono_font : str;
  sans_font : str
}.

Definition scale (f : FontSettings) (factor : Q) : FontSettings :=
  {| base_size := py_int (inject_Z (base_size f) * factor);
     title_size := py_int (inject_Z (title_size f) * factor);
     header_size := py_int (inject_Z (header_size f) * factor);
     item_size := py_int (inject_Z (item_size f) * factor);
     footer_size := py_int (inject_Z (footer_size f) * factor);
     mono_font := mono_font f;
     sans_font := sans_font f |}.

Record LayoutConfig := mkLayoutConfig {
  size : BillSize;
  style : LayoutStyle;
  margins : Margins;
  fonts : FontSettings;
  chars_per_line : Z;
  max_qr_codes : Z;
  qr_size_mm : Q;
  logo_max_height_mm : Q;
  show_borders : bool;
  column_widths : list (str * Q);
  wrap_item_names : bool;
  max_lines_per_item : Z;
  page_break_threshold : Q
}.

(** A [LayoutConfig] built field by field from another one, as the
    dataclass constructor allows. *)
Definition with_max_lines_per_item (c : LayoutConfig) (n : Z)
  : LayoutConfig :=
  mkLayoutConfig (size c) (style c) (margins c) (fonts c)
    (chars_per_line c) (max_qr_codes c) (qr_size_mm c)
    (logo_max_height_mm c) (show_borders c) (column_widths c)
    (wrap_item_names c) n (page_break_threshold c).


Definition with_margins (c : LayoutConfig) (m : Margins) : LayoutConfig :=
  mkLayoutConfig (size c) (style c) m (fonts c)
    (chars_per_line c) (max_qr_codes c) (qr_size_mm c)
    (logo_max_height_mm c) (show_borders c) (column_widths c)
    (wrap_item_names c) (max_lines_per_item c) (page_break_threshold c).

Definition printable_width_mm (c : LayoutConfig) : Q :=
  inject_Z (width_mm (size c)) - horizontal_total (margins c).

Definition printable_height_mm (c : LayoutConfig) : Q :=
  if is_continuous (size c) then 0
  else inject_Z (height_mm (size c)) - vertical_total (margins c).

(** ** [BillFormatRegistry] *)

Module BillFormatRegistry.

Inductive paper_class := large | medium | small | strip.
Inductive thermal_class := standard | minimal.

(** [DEFAULT_MARGINS["paper"]] and [DEFAULT_MARGINS["thermal"]] *)
Definition DEFAULT_MARGINS_paper (k : paper_class) : Margins :=
  match k with
  | large => mkMargins 15 15 15 15
  | medium => mkMargins 12 12 12 12
  | small => mkMargins 10 10 10 10
  | strip => mkMargins 5 5 5 5
  end.

Definition DEFAULT_MARGINS_thermal (k : thermal_class) : Margins :=
  match k with
  | standard => mkMargins 3 3 3 3
  | minimal => mkMargins 2 2 2 2
  end.

Definition MIN_MARGINS : dict Margins :=
  [(lit "paper", mkMargins 5 5 5 5);
   (lit "thermal", mkMargins 2 2 2 2)].

Definition FONT_SCALES (s : BillSize) : option Q :=
  Some (match s with
        | A3 => 12 # 10
        | A4 | LETTER | LEGAL => 1%Q
        | A5 | HALF_LETTER => 85 # 100
        | THERMAL_80 | QUARTER_LETTER | CASH_RECEIPT => 8 # 10
        | THERMAL_76 | LONG_STRIP => 75 # 100
        | THERMAL_58 | THERMAL_57 => 7 # 10
        end).

Definition get_default_config (size : BillSize) (style : LayoutStyle)
  : LayoutConfig :=
  let margins :=
    if is_thermal size then
      DEFAULT_MARGINS_thermal
        (if LayoutStyle_beq style COMPACT then minimal else standard)
    else if size_in size [A3; LETTER; LEGAL] then DEFAULT_MARGINS_paper large
    else if size_in size [A4] then DEFAULT_MARGINS_paper medium
    else if size_in size [A5; HALF_LETTER] then DEFAULT_MARGINS_paper small
    else DEFAULT_MARGINS_paper strip in
  let base_fonts :=
    mkFontSettings 10 16 12 9 8 (lit "Courier") (lit "Helvetica") in
  let scale_factor :=
    match FONT_SCALES size with Some f => f | None => 1%Q end in
  let fonts := scale base_fonts scale_factor in
  let chars_per_line :=
    if is_thermal size then
      let printable_width :=
        (inject_Z (width_mm size) - horizontal_total margins)%Q in
      py_int (printable_width / (25 # 10))
    else 0 in
  let max_qr_codes :=
    if is_thermal size then 1
    else if size_in size [A3; LETTER; LEGAL] then 3 else 2 in
  let qr_size_mm : Q :=
    (if is_thermal size then 15 else if size_in size [A3] then 25 else 20)%Q
  in
  let logo_max_height : Q :=
    (if is_thermal size then 15 else if size_in size [A3] then 30 else 25)%Q
  in
  let column_widths :=
    if LayoutStyle_beq style COMPACT || is_thermal size then
      [(lit "item", 45 # 100); (lit "qty", 15 # 100);
       (lit "price", 20 # 100); (lit "total", 20 # 100)]
    else if LayoutStyle_beq style DETAILED then
      [(lit "item", 35 # 100); (lit "description", 25 # 100);
       (lit "qty", 10 # 100); (lit "price", 15 # 100);
       (lit "total", 15 # 100)]
    else
      [(lit "item", 40 # 100); (lit "qty", 15 # 100);
       (lit "price", 20 # 100); (lit "total", 25 # 100)] in
  {| size := size;
     style := style;
     margins := margins;
     fonts := fonts;
     chars_per_line := chars_per_line;
     max_qr_codes := max_qr_codes;
     qr_size_mm := qr_size_mm;
     logo_max_height_mm := logo_max_height;
     show_borders := negb (LayoutStyle_beq style MINIMAL);
     column_widths := column_widths;
     wrap_item_names := negb (is_thermal size);
     max_lines_per_item := if is_thermal size then 1 else 3;
     page_break_threshold := 85 # 100 |}.

(** The text of [f"{x}"] for a margin of [MIN_MARGINS]; those are the
    integers 5 and 2. *)
Definition fmt_mm (x : Q) : str :=
  lit (NilZero.string_of_int (Z.to_int (Qnum x / Zpos (Qden x)))).

Inductive side := Top | Right | Bottom | Left.

Definition side_name (s : side) : str :=
  match s with
  | Top => lit "Top"
  | Right => lit "Right"
  | Bottom => lit "Bottom"
  | Left => lit "Left"
  end.

Definition side_of (s : side) (m : Margins) : Q :=
  match s with
  | Top => top m
  | Right => right m
  | Bottom => bottom m
  | Left => left m
  end.

(** [f"<Side> margin too small (min: {min}mm)"] *)
Definition too_small (s : side) (min_margins : Margins) : str :=
  side_name s ++ lit " margin too small (min: "
    ++ fmt_mm (side_of s min_margins) ++ lit "mm)".

(** [MIN_MARGINS["paper"]], the default handed to [get], is looked up
    first. *)
Definition validate_margins (margins : Margins) (category : str)
  : result (bool * str) :=
  match dict_index MIN_MARGINS (lit "paper") with
  | Raise e => Raise e
  | Ok paper_minimum =>
      let min_margins := dict_get MIN_MARGINS category paper_minimum in
      let errors : list str := [] in
      let errors :=
        if Qltb (top margins) (top min_margins)
        then errors ++ [too_small Top min_margins] else errors in
      let errors :=
        if Qltb (right margins) (right min_margins)
        then errors ++ [too_small Right min_margins] else errors in
      let errors :=
        if Qltb (bottom margins) (bottom min_margins)
        then errors ++ [too_small Bottom min_margins] else errors in
      let errors :=
        if Qltb (left margins) (left min_margins)
        then errors ++ [too_small Left min_margins] else errors in
      match errors with
      | _ :: _ => Ok (false, join (lit "; ") errors)
      | [] => Ok (true, [])
      end
  end.

Definition get_all_sizes : list BillSize := BillSizeData.all.

Definition get_paper_sizes : list BillSize :=
  filter (fun s => negb (is_thermal s)) BillSizeData.all.

Definition get_thermal_sizes : list BillSize :=
  filter is_thermal BillSizeData.all.

(** A distance as [find_closest_size] computes it: [float('inf')], an
    absolute value [abs(x)], or a square root [math.sqrt(x)] of a sum of
    squares.  Distances are non-negative reals, so they compare as their
    squares do. *)
Inductive dist :=
| Inf
| AbsOf (x : Q)
| SqrtOf (x : Q).

Definition squared (d : dist) : option Q :=
  match d with
  | Inf => None
  | AbsOf x => Some (x * x)%Q
  | SqrtOf x => Some x
  end.

(** [a < b] *)
Definition dist_ltb (a b : dist) : bool :=
  match squared a, squared b with
  | Some x, Some y => Qltb x y
  | Some _, None => true
  | None, _ => false
  end.

Definition diff_of (size : BillSize) (width_mm height_mm : Q) : dist :=
  if is_continuous size then
    AbsOf (inject_Z (BillSizeData.width_mm size) - width_mm)%Q
  else
    SqrtOf ((inject_Z (BillSizeData.width_mm size) - width_mm) ^ 2
            + (inject_Z (BillSizeData.height_mm size) - height_mm) ^ 2)%Q.

(** One iteration of the search loop on [(best_match, min_diff)]. *)
Definition closest_step (width_mm height_mm : Q)
    (st : option BillSize * dist) (size : BillSize)
  : option BillSize * dist :=
  let '(best_match, min_diff) := st in
  let diff := diff_of size width_mm height_mm in
  if dist_ltb diff min_diff then (Some size, diff)
  else (best_match, min_diff).

Definition find_closest_size (width_mm height_mm : Q)
    (prefer_thermal : bool) : option BillSize :=
  let sizes := if prefer_thermal then get_thermal_sizes
               else get_paper_sizes in
  let sizes := match sizes with [] => get_all_sizes | _ :: _ => sizes end in
  fst (fold_left (closest_step width_mm height_mm) sizes (None, Inf)).

End BillFormatRegistry.
Import BillFormatRegistry.

(** ** [AutoLayoutEngine]

    The engine holds one [LayoutConfig]; each method takes it as [config]. *)

Module AutoLayoutEngine.

Record ItemLayout := mkItemLayout {
  display_name : str;
  lines : list str;
  truncated : bool
}.

(** One iteration of the wrapping loop on [(lines, current_line)]. *)
Definition wrap_step (st : list str * list str) (word : str)
  : list str * list str :=
  let '(lines, current_line) := st in
  if len (join (lit " ") (current_line ++ [word])) <=? 40 then
    (lines, current_line ++ [word])
  else
    let lines :=
      match current_line with
      | _ :: _ => lines ++ [join (lit " ") current_line]
      | [] => lines
      end in
    (lines, [word]).

Definition wrap_words (words : list str) : list str :=
  let '(lines, current_line) := fold_left wrap_step words ([], []) in
  match current_line with
  | _ :: _ => lines ++ [join (lit " ") current_line]
  | [] => lines
  end.

(** [lines[-1] = lines[-1][:-3] + "..."]; indexing an empty list raises. *)
Definition ellipsize_last (lines : list str) : result (list str) :=
  match lines with
  | [] => Raise IndexError
  | x :: rest =>
      Ok (removelast lines ++ [slice_to (-3) (last lines x) ++ lit "..."])
  end.

Definition calculate_item_layout (config : LayoutConfig) (item_name : str)
  : result ItemLayout :=
  if is_thermal (size config) then
    let budget := (inject_Z (chars_per_line config) * (45 # 100))%Q in
    if Qltb budget (inject_Z (len item_name)) then
      let max_chars := py_int (budget - 3)%Q in
      let display := slice_to max_chars item_name ++ lit "..." in
      Ok (mkItemLayout display [display] true)
    else
      Ok (mkItemLayout item_name [item_name] false)
  else if wrap_item_names config then
    let words := split item_name in
    let lines := wrap_words words in
    if max_lines_per_item config <? len lines then
      match ellipsize_last (slice_to (max_lines_per_item config) lines) with
      | Ok lines => Ok (mkItemLayout item_name lines true)
      | Raise e => Raise e
      end
    else
      Ok (mkItemLayout item_name lines false)
  else
    Ok (mkItemLayout item_name [item_name] false).

(** The dictionary [calculate_qr_layout] returns; [grid] holds the keys
    "rows" and "cols", present only in the grid arrangement. *)
Record QrLayout := mkQrLayout {
  count : Z;
  arrangement : str;
  size_mm : Q;
  spacing_mm : Z;
  grid : option (Z * Z)
}.

Definition calculate_qr_layout (config : LayoutConfig) (num_qr_codes : Z)
  : QrLayout :=
  let max_qr := max_qr_codes config in
  let actual_count := Z.min num_qr_codes max_qr in
  if is_thermal (size config) then
    mkQrLayout actual_count (lit "vertical") (qr_size_mm config) 2 None
  else if actual_count <=? 2 then
    mkQrLayout actual_count (lit "horizontal") (qr_size_mm config) 5 None
  else
    mkQrLayout actual_count (lit "grid")
      (qr_size_mm config * (8 # 10))%Q 5 (Some (2, 2)).

Definition item_row_height (config : LayoutConfig) : Z :=
  if is_thermal (size config) then 5 else 7.

Definition estimate_content_height (config : LayoutConfig)
    (num_items : Z) (has_qr has_logo : bool) : Q :=
  let height := 0%Q in
  let height :=
    if has_logo then (height + (logo_max_height_mm config + 5))%Q
    else height in
  let height := (height + 30)%Q in
  let height := (height + 20)%Q in
  let height :=
    (height + inject_Z ((num_items + 1) * item_row_height config))%Q in
  let height := (height + 20)%Q in
  let height :=
    if has_qr then (height + (qr_size_mm config + 10))%Q else height in
  let height := (height + 15)%Q in
  height.

Definition needs_pagination (config : LayoutConfig) (content_height_mm : Q)
  : bool :=
  if is_continuous (size config) then false
  else
    let available_height := printable_height_mm config in
    let threshold_height :=
      (available_height * page_break_threshold config)%Q in
    Qltb threshold_height content_height_mm.

(** The batch size of [calculate_page_breaks] when none is supplied. *)
Definition derived_items_per_page (config : LayoutConfig) : Z :=
  let available_height := (printable_height_mm config * (6 # 10))%Q in
  let item_height := item_row_height config in
  py_int (available_height / inject_Z item_height).

(** [items_per_page] is [None] when the argument is omitted; [not x] holds
    of [None] and of [0]. *)
Definition calculate_page_breaks {A} (config : LayoutConfig)
    (items : list A) (items_per_page : option Z) : result (list (list A)) :=
  if negb (needs_pagination config
             (estimate_content_height config (len items) false false))
  then Ok [items]
  else
    let items_per_page :=
      match items_per_page with
      | None => derived_items_per_page config
      | Some k => if k =? 0 then derived_items_per_page config else k
      end in
    match range0 (len items) items_per_page with
    | Raise e => Raise e
    | Ok starts =>
        Ok (map (fun i => slice i (i + items_per_page) items) starts)
    end.

End AutoLayoutEngine.
Import AutoLayoutEngine.
Import ThermalOptimizer.

(** ** The floating-point reading of the float comparisons

    [find_closest_size] and [needs_pagination] decide by comparing floats
    that the code has computed with rounding.  This layer embeds them over
    the float operations they use, kept as an interface ([Arith]) whose
    comparisons obey the order laws of IEEE 754 ([Ordered]); [binary64] is
    the instance CPython runs on, with the kernel's primitive floats. *)

Module Floating.

Class Arith (F : Type) := {
  (** the float of an [int] operand of a mixed expression *)
  of_int : Z -> F;
  (** the float a decimal literal denotes *)
  of_decimal : Q -> F;
  fadd : F -> F -> F;
  fsub : F -> F -> F;
  fmul : F -> F -> F;
  (** [abs(x)] *)
  fabs : F -> F;
  (** [x ** 2]; raises [OverflowError] when a finite [x] overflows *)
  fsquare : F -> result F;
  (** [math.sqrt(x)]; raises [ValueError] below zero *)
  fsqrt : F -> result F;
  (** [x < y] and [x <= y]; both false when an operand is NaN *)
  flt : F -> F -> bool;
  fle : F -> F -> bool;
  (** [float('inf')] *)
  finf : F
}.

(** The laws of the two comparisons that hold in IEEE 754 arithmetic, NaN
    included. *)
Class Ordered (F : Type) `{Arith F} : Prop := {
  flt_trans : forall a b c : F,
    flt a b = true -> flt b c = true -> flt a c = true;
  flt_not_le : forall a b : F, flt a b = true -> fle b a = false;
  flt_below : forall a b c : F,
    flt c b = false -> flt a b = true -> fle c a = false
}.

Section Model.

Context {F : Type} `{Arith F}.

Record Margins := mkMargins {
  top : F;
  right : F;
  bottom : F;
  left : F
}.

Definition horizontal_total (m : Margins) : F := fadd (left m) (right m).
Definition vertical_total (m : Margins) : F := fadd (top m) (bottom m).

Record LayoutConfig := mkLayoutConfig {
  size : BillSize;
  style : LayoutStyle;
  margins : Margins;
  fonts : FontSettings;
  chars_per_line : Z;
  max_qr_codes : Z;
  qr_size_mm : F;
  logo_max_height_mm : F;
  show_borders : bool;
  column_widths : list (str * F);
  wrap_item_names : bool;
  max_lines_per_item : Z;
  page_break_threshold : F
}.

Definition printable_width_mm (c : LayoutConfig) : F :=
  fsub (of_int (width_mm (size c))) (horizontal_total (margins c)).

Definition printable_height_mm (c : LayoutConfig) : F :=
  if is_continuous (size c) then of_int 0
  else fsub (of_int (height_mm (size c))) (vertical_total (margins c)).

(** [content_height_mm > threshold_height] is
    [threshold_height < content_height_mm]. *)
Definition needs_pagination (config : LayoutConfig) (content_height_mm : F)
  : bool :=
  if is_continuous (size config) then false
  else
    let available_height := printable_height_mm config in
    let threshold_height :=
      fmul available_height (page_break_threshold config) in
    flt threshold_height content_height_mm.

(** The distance of one candidate, as the loop body computes it. *)
Definition diff_of (size : BillSize) (width_mm height_mm : F) : result F :=
  if is_continuous size then
    Ok (fabs (fsub (of_int (BillSizeData.width_mm size)) width_mm))
  else
    match fsquare (fsub (of_int (BillSizeData.width_mm size)) width_mm) with
    | Raise e => Raise e
    | Ok dw2 =>
        match
          fsquare (fsub (of_int (BillSizeData.height_mm size)) height_mm)
        with
        | Raise e => Raise e
        | Ok dh2 => fsqrt (fadd dw2 dh2)
        end
    end.

(** One iteration of the search loop on [(best_match, min_diff)]; an
    exception ends the loop. *)
Definition closest_step (width_mm height_mm : F)
    (st : result (option BillSize * F)) (size : BillSize)
  : result (option BillSize * F) :=
  match st with
  | Raise e => Raise e
  | Ok (best_match, min_diff) =>
      match diff_of size width_mm height_mm with
      | Raise e => Raise e
      | Ok diff =>
          if flt diff min_diff then Ok (Some size, diff)
          else Ok (best_match, min_diff)
      end
  end.

Definition find_closest_size (width_mm height_mm : F)
    (prefer_thermal : bool) : result (option BillSize) :=
  let sizes := if prefer_thermal then get_thermal_sizes
               else get_paper_sizes in
  let sizes := match sizes with [] => get_all_sizes | _ :: _ => sizes end in
  match
    fold_left (closest_step width_mm height_mm) sizes (Ok (None, finf))
  with
  | Raise e => Raise e
  | Ok (best_match, _) => Ok best_match
  end.

End Model.

Arguments Margins F : clear implicits.
Arguments LayoutConfig F : clear implicits.

(** *** IEEE 754 binary64 *)

(** The double of an integer below [2^63] in absolute value, which the
    dimensions of the catalogue and the digits of the literals are. *)
Definition b64_of_int (z : Z) : PrimFloat.float :=
  if z <? 0 then PrimFloat.opp (PrimFloat.of_uint63 (Uint63.of_Z (- z)))
  else PrimFloat.of_uint63 (Uint63.of_Z z).

(** The nearest double to [n / d]: one correctly rounded division of two
    integers that are doubles themselves. *)
Definition b64_of_decimal (q : Q) : PrimFloat.float :=
  PrimFloat.div (b64_of_int (Qnum q)) (b64_of_int (Zpos (Qden q))).

(** [x ** 2] is the correctly rounded product; NaN and the infinities pass
    through, a finite operand that overflows raises. *)
Definition b64_square (x : PrimFloat.float) : result PrimFloat.float :=
  let y := PrimFloat.mul x x in
  if PrimFloat.is_infinity y && PrimFloat.is_finite x
  then Raise OverflowError else Ok y.

Definition b64_sqrt (x : PrimFloat.float) : result PrimFloat.float :=
  if PrimFloat.ltb x PrimFloat.zero then Raise ValueError
  else Ok (PrimFloat.sqrt x).

#[export] Instance binary64 : Arith PrimFloat.float := {|
  of_int := b64_of_int;
  of_decimal := b64_of_decimal;
  fadd := PrimFloat.add;
  fsub := PrimFloat.sub;
  fmul := PrimFloat.mul;
  fabs := PrimFloat.abs;
  fsquare := b64_square;
  fsqrt := b64_sqrt;
  flt := PrimFloat.ltb;
  fle := PrimFloat.leb;
  finf := PrimFloat.infinity
|}.

End Floating.

(** The configuration with the floats that the decimal constants of an
    exact configuration denote.  Every float field of a default
    configuration is a literal of the source (the margins, the QR and logo
    sizes, the column fractions and the threshold 0.85), so
    [floating_default_config] is what [get_default_config] returns when the
    arithmetic is the code's. *)
Definition floating_config {F : Type} `{Floating.Arith F}
    (c : LayoutConfig) : Floating.LayoutConfig F :=
  Floating.mkLayoutConfig
    (size c) (style c)
    (Floating.mkMargins
       (Floating.of_decimal (top (margins c)))
       (Floating.of_decimal (right (margins c)))
       (Floating.of_decimal (bottom (margins c)))
       (Floating.of_decimal (left (margins c))))
    (fonts c) (chars_per_line c) (max_qr_codes c)
    (Floating.of_decimal (qr_size_mm c))
    (Floating.of_decimal (logo_max_height_mm c))
    (show_borders c)
    (map (fun kv => (fst kv, Floating.of_decimal (snd kv)))
       (column_widths c))
    (wrap_item_names c) (max_lines_per_item c)
    (Floating.of_decimal (page_break_threshold c)).

Definition floating_default_config {F : Type} `{Floating.Arith F}
    (sz : BillSize) (st : LayoutStyle) : Floating.LayoutConfig F :=
  floating_config (get_default_config sz st).

(** ** Invariants of the wrapping loop *)

Module WrapLoop.

(** The lines the loop would return if it stopped in state [st]. *)
Definition flush (st : list str * list str) : list str :=
  match snd st with
  | _ :: _ => fst st ++ [join (lit " ") (snd st)]
  | [] => fst st
  end.

(** After the first word the current line is never empty, and the lines
    read back as the words consumed so far. *)
Definition wrap_inv (seen : list str) (st : list str * list str) : Prop :=
  (seen = [] /\ st = ([], []))
  \/ (seen <> [] /\ snd st <> []
      /\ join (lit " ") (flush st) = join (lit " ") seen).

(** Every line is within the 40-character budget or is a single word. *)
Definition line_ok (all : list str) (line : str) : Prop :=
  len line <= 40 \/ In line all.

End WrapLoop.
Import WrapLoop.

(** ** The distance of the specification

    The specification measures a candidate against the requested
    dimensions in millimetres: by width alone for a continuous roll, by the
    Euclidean distance over width and height for a fixed page. *)

Module Geometry.

Definition distance_mm (size : BillSize) (width_mm height_mm : Q) : R :=
  let dw := (IZR (BillSizeData.width_mm size) - Q2R width_mm)%R in
  let dh := (IZR (BillSizeData.height_mm size) - Q2R height_mm)%R in
  if is_continuous size then Rabs dw
  else sqrt (dw * dw + dh * dh).

End Geometry.
Import Geometry.

(** * Properties *)

(** ** Lengths and slices *)

Section ListFacts.

Context {A : Type}.
Implicit Types l : list A.

Lemma len_nonneg l : 0 <= len l.
Proof. unfold len; lia. Qed.

Lemma len_app l1 l2 : len (l1 ++ l2) = len l1 + len l2.
Proof. unfold len; rewrite length_app; lia. Qed.

Lemma len_nil : len (@nil A) = 0.
Proof. reflexivity. Qed.

Lemma len_cons (x : A) l : len (x :: l) = 1 + len l.
Proof. unfold len; simpl List.length; lia. Qed.

Lemma len_firstn n l : len (firstn n l) = Z.min (Z.of_nat n) (len l).
Proof. unfold len; rewrite length_firstn; lia. Qed.

Lemma len_skipn n l : len (skipn n l) = Z.max 0 (len l - Z.of_nat n).
Proof. unfold len; rewrite length_skipn; lia. Qed.

(** The length of [l[lo:hi]], whatever the signs of the bounds. *)
Lemma len_slice lo hi l :
  len (slice lo hi l)
  = Z.max 0 (clamp_index (len l) hi - clamp_index (len l) lo).
Proof.
  unfold slice. rewrite len_firstn, len_skipn.
  pose proof (len_nonneg l) as Hl.
  assert (0 <= clamp_index (len l) lo <= len l) as Hlo
    by (unfold clamp_index; destruct (Z.ltb_spec lo 0); lia).
  assert (0 <= clamp_index (len l) hi <= len l) as Hhi
    by (unfold clamp_index; destruct (Z.ltb_spec hi 0); lia).
  lia.
Qed.

Lemma len_slice_to_nonneg n l :
  0 <= n -> len (slice_to n l) = Z.min n (len l).
Proof.
  intros Hn. unfold slice_to. rewrite len_slice.
  pose proof (len_nonneg l) as Hl.
  unfold clamp_index.
  change (0 <? 0) with false. cbv iota.
  destruct (Z.ltb_spec n 0); lia.
Qed.

Lemma len_slice_to_le n l : len (slice_to n l) <= len l.
Proof.
  unfold slice_to. rewrite len_slice.
  pose proof (len_nonneg l) as Hl.
  unfold clamp_index. change (0 <? 0) with false. cbv iota.
  destruct (Z.ltb_spec n 0); lia.
Qed.

(** [l[i:i+n]] for non-negative [i] and [n] *)
Lemma slice_window i n l :
  0 <= i -> 0 <= n ->
  slice i (i + n) l = firstn (Z.to_nat n) (skipn (Z.to_nat i) l).
Proof.
  intros Hi Hn. unfold slice, clamp_index.
  pose proof (len_nonneg l) as Hl.
  destruct (i <? 0) eqn:E1; [apply Z.ltb_lt in E1; lia|].
  destruct (i + n <? 0) eqn:E2; [apply Z.ltb_lt in E2; lia|].
  destruct (Z_lt_le_dec i (len l)) as [Hlt|Hge].
  - rewrite (Z.min_l i) by lia.
    destruct (Z_le_gt_dec (i + n) (len l)) as [H1|H1].
    + rewrite Z.min_l by lia. f_equal. lia.
    + rewrite Z.min_r by lia.
      rewrite !firstn_all2; [reflexivity | |];
        rewrite length_skipn; unfold len in *; lia.
  - rewrite (Z.min_r i) by lia.
    rewrite !(skipn_all2 (n := Z.to_nat _)) by (unfold len in *; lia).
    now rewrite !firstn_nil.
Qed.

End ListFacts.

Lemma len_map {A B} (f : A -> B) (l : list A) : len (map f l) = len l.
Proof. unfold len. now rewrite length_map. Qed.

Lemma len_str_mul c n : len (str_mul c n) = Z.max 0 n.
Proof. unfold str_mul, len. rewrite repeat_length. lia. Qed.

Lemma Qltb_lt x y : Qltb x y = true <-> (x < y)%Q.
Proof.
  unfold Qltb. rewrite negb_true_iff.
  split; intros H.
  - apply Qnot_le_lt. intros Hle. apply Qle_bool_iff in Hle. congruence.
  - destruct (Qle_bool y x) eqn:E; [|reflexivity].
    apply Qle_bool_iff in E. exfalso. exact (Qlt_not_le _ _ H E).
Qed.

Lemma Qltb_ge x y : Qltb x y = false <-> (y <= x)%Q.
Proof.
  unfold Qltb. rewrite negb_false_iff. apply Qle_bool_iff.
Qed.

(** ** [ThermalOptimizer] *)

Lemma optimize_for_thermal_fits text w :
  0 <= w -> len (optimize_for_thermal text w) <= w.
Proof.
  intros Hw. unfold optimize_for_thermal.
  destruct (len text <=? w) eqn:E1.
  - apply Z.leb_le in E1. exact E1.
  - apply Z.leb_gt in E1.
    destruct (3 <? w) eqn:E2.
    + apply Z.ltb_lt in E2.
      rewrite len_app, len_slice_to_nonneg by lia.
      change (len (lit "...")) with 3. lia.
    + rewrite len_slice_to_nonneg by lia. lia.
Qed.

(** 60% of a non-negative budget lies between 0 and the budget. *)
Lemma left_share_bounds available :
  0 <= available ->
  0 <= py_int (inject_Z available * (6 # 10)) <= available.
Proof.
  intros Ha. unfold py_int. simpl.
  rewrite Z.mul_1_l || idtac.
  split.
  - apply Z.quot_pos; lia.
  - apply Z.quot_le_upper_bound; lia.
Qed.

Lemma format_thermal_line_len l r w :
  len (format_thermal_line l r w)
  = let '(l', r') :=
      if w - len l - len r <? 0 then
        let left_chars := py_int (inject_Z (w - 3) * (6 # 10)) in
        (optimize_for_thermal l left_chars,
         optimize_for_thermal r (w - 3 - left_chars))
      else (l, r) in
    Z.max w (len l' + len r' + 1).
Proof.
  unfold format_thermal_line.
  destruct (w - len l - len r <? 0);
    rewrite !len_app, len_str_mul; lia.
Qed.

(** C1 (as amended).  [format_thermal_line left right width] has length
    exactly [width] when the two fields are shorter than the width together,
    and when they are longer and the width is at least 3.  When their
    lengths add up to exactly [width] the forced single space makes the line
    [left + " " + right], one character longer than [width]. *)
Theorem format_thermal_line_width :
  forall (l r : str) (width : Z),
    0 < width ->
    ((len l + len r < width \/ (width < len l + len r /\ 3 <= width)) ->
     len (format_thermal_line l r width) = width)
    /\ (len l + len r = width ->
        format_thermal_line l r width = l ++ [32%N] ++ r
        /\ len (format_thermal_line l r width) = width + 1).
Proof.
  intros l r width Hpos. split.
  - intros Hcase. rewrite format_thermal_line_len.
    destruct (width - len l - len r <? 0) eqn:E.
    + apply Z.ltb_lt in E.
      destruct Hcase as [Hlt | [_ H3]]; [lia|].
      pose proof (left_share_bounds (width - 3) ltac:(lia)) as Hb.
      pose proof (optimize_for_thermal_fits l _ (proj1 Hb)) as Hl.
      pose proof (optimize_for_thermal_fits r
                    (width - 3 - py_int (inject_Z (width - 3) * (6 # 10)))
                    ltac:(lia)) as Hr.
      cbv beta iota zeta. lia.
    + apply Z.ltb_ge in E. destruct Hcase as [Hlt | [Hgt _]]; lia.
  - intros Heq.
    assert (format_thermal_line l r width = l ++ [32%N] ++ r) as Hline.
    { unfold format_thermal_line.
      replace (width - len l - len r) with 0 by lia. reflexivity. }
    split; [exact Hline|].
    rewrite Hline, !len_app. change (len [32%N]) with 1. lia.
Qed.

(** The two regimes of C1 on the lines of the test suite and on an exact
    fit. *)
Lemma format_thermal_line_width_witness :
  len (format_thermal_line (lit "Very Long Item Name That Exceeds Width")
         (lit "Rs999.99") 32) = 32
  /\ len (format_thermal_line (lit "ab") (lit "cd") 4) = 5.
Proof.
  split.
  - apply (format_thermal_line_width _ _ 32); [lia|].
    right. vm_compute. split; [reflexivity | discriminate].
  - apply (format_thermal_line_width (lit "ab") (lit "cd") 4); [lia|].
    reflexivity.
Defined.

(** C1 as the specification words it fails: two one-character fields on a
    width of 2 give the three characters ["a b"]; and on a width of 1, below
    the three characters reserved for truncation, ["ab"] and ["c"] give a
    line of two characters. *)
Lemma format_thermal_line_exact_fit_overflows :
  format_thermal_line (lit "a") (lit "b") 2 = lit "a b"
  /\ len (format_thermal_line (lit "ab") (lit "c") 1) = 2
  /\ ~ (forall (l r : str) (width : Z),
          0 < width -> len (format_thermal_line l r width) = width).
Proof.
  split; [reflexivity|]. split; [reflexivity|].
  intros H. specialize (H (lit "a") (lit "b") 2 ltac:(lia)).
  vm_compute in H. discriminate.
Qed.

(** ** [BillFormatRegistry]: margins *)

Lemma MIN_MARGINS_paper :
  dict_get MIN_MARGINS (lit "paper") (mkMargins 5 5 5 5) = mkMargins 5 5 5 5.
Proof. reflexivity. Qed.

Lemma MIN_MARGINS_thermal :
  dict_get MIN_MARGINS (lit "thermal") (mkMargins 5 5 5 5)
  = mkMargins 2 2 2 2.
Proof. reflexivity. Qed.

Lemma MIN_MARGINS_other category :
  category <> lit "paper" -> category <> lit "thermal" ->
  dict_get MIN_MARGINS category (mkMargins 5 5 5 5) = mkMargins 5 5 5 5.
Proof.
  intros Hp Ht.
  unfold dict_get, MIN_MARGINS, dict_lookup, str_eqb.
  destruct (list_eq_dec N.eq_dec category (lit "paper")); [contradiction|].
  destruct (list_eq_dec N.eq_dec category (lit "thermal")); [contradiction|].
  reflexivity.
Qed.

Ltac q_absurd :=
  match goal with
  | H1 : (?x < ?y)%Q, H2 : (?y <= ?x)%Q |- _ =>
      exact (False_ind _ (Qlt_not_le _ _ H1 H2))
  end.

(** Turns the four comparisons of [validate_margins] into facts. *)
Ltac split_sides m mn :=
  destruct (Qltb (top m) mn) eqn:Et;
  destruct (Qltb (right m) mn) eqn:Er;
  destruct (Qltb (bottom m) mn) eqn:Eb;
  destruct (Qltb (left m) mn) eqn:El;
  repeat match goal with
    | H : Qltb _ _ = true |- _ => apply Qltb_lt in H
    | H : Qltb _ _ = false |- _ => apply Qltb_ge in H
    end.

(** What [validate_margins] does once the category resolves to a uniform
    minimum [mn]. *)
Lemma validate_margins_against (m : Margins) (category : str) (mn : Q) :
  dict_get MIN_MARGINS category (mkMargins 5 5 5 5) = mkMargins mn mn mn mn ->
  (mn = 5%Q \/ mn = 2%Q) ->
  exists (valid : bool) (message : str),
    validate_margins m category = Ok (valid, message)
    /\ (valid = false <-> exists s, (side_of s m < mn)%Q)
    /\ (forall s,
           (side_of s m < mn)%Q
           <-> contains (side_name s ++ lit " margin too small") message
               = true)
    /\ (valid = true -> message = []).
Proof.
  intros Hmin Hmn. unfold validate_margins.
  change (dict_index MIN_MARGINS (lit "paper"))
    with (Ok (mkMargins 5 5 5 5)).
  cbv beta iota. rewrite Hmin.
  cbn [top right bottom left].
  destruct Hmn as [-> | ->]; [split_sides m 5%Q | split_sides m 2%Q].
  all: cbn [app]; eexists; eexists; (split; [reflexivity|]).
  all: split; [| split].
  all: try (intros s; destruct s; cbn [side_of]; split; intros H;
            first [ assumption | q_absurd
                  | vm_compute; reflexivity
                  | vm_compute in H; discriminate ]).
  all: try (split;
            [ intros _;
              first [ exists Top; assumption | exists Right; assumption
                    | exists Bottom; assumption | exists Left; assumption ]
            | reflexivity ]).
  all: try (split; [discriminate | intros [s Hs]; destruct s;
                                   cbn [side_of] in Hs; q_absurd]).
  all: first [reflexivity | discriminate].
Qed.

(** C3.  Every default configuration has four strictly positive margins,
    and [validate_margins] accepts them for the category of the size. *)
Theorem default_margins_are_valid :
  forall (sz : BillSize) (st : LayoutStyle),
    let m := margins (get_default_config sz st) in
    (0 < top m /\ 0 < right m /\ 0 < bottom m /\ 0 < left m)%Q
    /\ validate_margins m (category sz) = Ok (true, []).
Proof.
  intros sz st.
  destruct sz, st; vm_compute; repeat split; reflexivity.
Qed.

(** C7.  On the categories "paper" (minimum 5 mm) and "thermal" (minimum
    2 mm) [validate_margins] raises nothing and returns a pair; the flag is
    false exactly when some side is below the minimum, the message then
    names every failing side and no other, and an accepted set of margins
    has the empty message. *)
Theorem validate_margins_reports_every_failing_side :
  forall (m : Margins) (category : str) (minimum : Q),
    (category = lit "paper" /\ minimum = 5%Q)
    \/ (category = lit "thermal" /\ minimum = 2%Q) ->
    exists (valid : bool) (message : str),
      validate_margins m category = Ok (valid, message)
      /\ (valid = false <-> exists s, (side_of s m < minimum)%Q)
      /\ (forall s,
             (side_of s m < minimum)%Q
             <-> contains (side_name s ++ lit " margin too small") message
                 = true)
      /\ (valid = true -> message = []).
Proof.
  intros m category minimum [[-> ->] | [-> ->]].
  - apply validate_margins_against; [reflexivity | now left].
  - apply validate_margins_against; [reflexivity | now right].
Qed.

Lemma validate_margins_reports_every_failing_side_witness :
  exists (valid : bool) (message : str),
    validate_margins (mkMargins 2 6 2 1) (lit "paper") = Ok (valid, message)
    /\ (valid = false
        <-> exists s, (side_of s (mkMargins 2 6 2 1) < 5)%Q)
    /\ (forall s,
           (side_of s (mkMargins 2 6 2 1) < 5)%Q
           <-> contains (side_name s ++ lit " margin too small") message
               = true)
    /\ (valid = true -> message = []).
Proof.
  apply (validate_margins_reports_every_failing_side
           (mkMargins 2 6 2 1) (lit "paper") 5%Q).
  left. split; reflexivity.
Defined.

(** C8.  A category that is neither "paper" nor "thermal" raises nothing
    and is validated against the paper minimums: the result is the one for
    "paper", valid exactly when every side is at least 5 mm. *)
Theorem validate_margins_unknown_category :
  forall (m : Margins) (category : str),
    category <> lit "paper" ->
    category <> lit "thermal" ->
    validate_margins m category = validate_margins m (lit "paper")
    /\ exists (valid : bool) (message : str),
         validate_margins m category = Ok (valid, message)
         /\ (valid = true
             <-> (5 <= top m /\ 5 <= right m
                  /\ 5 <= bottom m /\ 5 <= left m)%Q).
Proof.
  intros m category Hp Ht.
  assert (validate_margins m category = validate_margins m (lit "paper"))
    as Heq.
  { unfold validate_margins.
    change (dict_index MIN_MARGINS (lit "paper"))
      with (Ok (mkMargins 5 5 5 5)).
    cbv beta iota.
    now rewrite (MIN_MARGINS_other category Hp Ht), MIN_MARGINS_paper. }
  split; [exact Heq|].
  destruct (validate_margins_against m category 5
              (MIN_MARGINS_other category Hp Ht) (or_introl eq_refl))
    as (valid & message & Hcall & Hfalse & _ & _).
  exists valid, message. split; [exact Hcall|].
  split.
  - intros Hvalid.
    assert (forall s, (5 <= side_of s m)%Q) as Hall.
    { intros s. apply Qnot_lt_le. intros Hlt.
      assert (valid = false) as Hf by (apply Hfalse; now exists s).
      congruence. }
    repeat split;
      [apply (Hall Top) | apply (Hall Right)
       | apply (Hall Bottom) | apply (Hall Left)].
  - intros (H1 & H2 & H3 & H4).
    destruct valid; [reflexivity|].
    destruct (proj1 Hfalse eq_refl) as [s Hs].
    destruct s; cbn [side_of] in Hs; q_absurd.
Qed.

Lemma validate_margins_unknown_category_witness :
  validate_margins (mkMargins 4 5 6 7) (lit "strip")
  = validate_margins (mkMargins 4 5 6 7) (lit "paper")
  /\ exists (valid : bool) (message : str),
       validate_margins (mkMargins 4 5 6 7) (lit "strip")
       = Ok (valid, message)
       /\ (valid = true <-> (5 <= 4 /\ 5 <= 5 /\ 5 <= 6 /\ 5 <= 7)%Q).
Proof.
  apply (validate_margins_unknown_category (mkMargins 4 5 6 7) (lit "strip"));
    vm_compute; discriminate.
Defined.

(** ** [BillFormatRegistry]: nearest size *)

Lemma thermal_sizes_listed :
  get_thermal_sizes = [THERMAL_57; THERMAL_58; THERMAL_76; THERMAL_80].
Proof. reflexivity. Qed.

Lemma paper_sizes_listed :
  get_paper_sizes
  = [A5; A4; A3; HALF_LETTER; LETTER; LEGAL;
     QUARTER_LETTER; LONG_STRIP; CASH_RECEIPT].
Proof. reflexivity. Qed.

(** A size is continuous exactly when it is thermal. *)
Lemma is_continuous_is_thermal s : is_continuous s = is_thermal s.
Proof. destruct s; reflexivity. Qed.

Lemma dist_ltb_trans a b c :
  dist_ltb a b = true -> dist_ltb b c = true -> dist_ltb a c = true.
Proof.
  unfold dist_ltb.
  destruct (squared a) as [x|], (squared b) as [y|], (squared c) as [z|];
    try discriminate; try reflexivity.
  rewrite !Qltb_lt. apply Qlt_trans.
Qed.

Lemma dist_ltb_le_trans a b c :
  dist_ltb a b = true -> dist_ltb c b = false -> dist_ltb a c = true.
Proof.
  unfold dist_ltb.
  destruct (squared a) as [x|], (squared b) as [y|], (squared c) as [z|];
    try discriminate; try reflexivity.
  rewrite !Qltb_lt, Qltb_ge. apply Qlt_le_trans.
Qed.

Lemma dist_ltb_Inf size w h : dist_ltb (diff_of size w h) Inf = true.
Proof. unfold diff_of. destruct (is_continuous size); reflexivity. Qed.

Lemma closest_step_better w h best0 d0 a :
  dist_ltb (diff_of a w h) d0 = true ->
  closest_step w h (best0, d0) a = (Some a, diff_of a w h).
Proof. intros H. unfold closest_step. now rewrite H. Qed.

Lemma closest_step_keep w h best0 d0 a :
  dist_ltb (diff_of a w h) d0 = false ->
  closest_step w h (best0, d0) a = (best0, d0).
Proof. intros H. unfold closest_step. now rewrite H. Qed.

(** The search loop from any state: either no candidate beats the running
    minimum, or the loop stops on the first candidate of least distance. *)
Lemma closest_fold w h :
  forall sizes best0 d0,
    let st := fold_left (closest_step w h) sizes (best0, d0) in
    (st = (best0, d0)
     /\ forall x, In x sizes -> dist_ltb (diff_of x w h) d0 = false)
    \/ (exists s pre post,
           sizes = pre ++ s :: post
           /\ st = (Some s, diff_of s w h)
           /\ dist_ltb (diff_of s w h) d0 = true
           /\ (forall x, In x pre ->
                         dist_ltb (diff_of s w h) (diff_of x w h) = true)
           /\ (forall x, In x post ->
                         dist_ltb (diff_of x w h) (diff_of s w h) = false)).
Proof.
  induction sizes as [|a rest IH]; intros best0 d0; cbn [fold_left].
  - left. split; [reflexivity | intros x []].
  - destruct (dist_ltb (diff_of a w h) d0) eqn:Ea;
      [rewrite (closest_step_better _ _ _ _ _ Ea)
      |rewrite (closest_step_keep _ _ _ _ _ Ea)].
    + right.
      destruct (IH (Some a) (diff_of a w h))
        as [[Hst Hall] | (s & pre & post & Hsz & Hst & Hlt & Hpre & Hpost)].
      * exists a, [], rest.
        split; [reflexivity|]. split; [exact Hst|]. split; [exact Ea|].
        split; [intros x []| exact Hall].
      * exists s, (a :: pre), post. subst rest.
        split; [reflexivity|]. split; [exact Hst|].
        split; [eapply dist_ltb_trans; eassumption|].
        split; [|exact Hpost].
        intros x [<- | Hx]; [exact Hlt | now apply Hpre].
    + destruct (IH best0 d0)
        as [[Hst Hall] | (s & pre & post & Hsz & Hst & Hlt & Hpre & Hpost)].
      * left. split; [exact Hst|].
        intros x [<- | Hx]; [exact Ea | now apply Hall].
      * right. exists s, (a :: pre), post. subst rest.
        split; [reflexivity|]. split; [exact Hst|]. split; [exact Hlt|].
        split; [|exact Hpost].
        intros x [<- | Hx]; [|now apply Hpre].
        eapply dist_ltb_le_trans; eassumption.
Qed.

(** [dist_ltb] on the distances of two candidates is [<] on the real
    distances of the specification. *)
Lemma Q2R_inject_Z z : Q2R (inject_Z z) = IZR z.
Proof. unfold Q2R. simpl. rewrite Rinv_1. apply Rmult_1_r. Qed.

Lemma squared_diff_of size w h :
  exists q, squared (diff_of size w h) = Some q
            /\ Q2R q = (distance_mm size w h * distance_mm size w h)%R
            /\ (0 <= distance_mm size w h)%R.
Proof.
  unfold diff_of, distance_mm.
  destruct (is_continuous size); cbn [squared]; eexists; split;
    try reflexivity.
  - split; [|apply Rabs_pos].
    rewrite Q2R_mult, Q2R_minus, Q2R_inject_Z.
    fold (Rsqr (IZR (BillSizeData.width_mm size) - Q2R w)).
    fold (Rsqr (Rabs (IZR (BillSizeData.width_mm size) - Q2R w))).
    apply Rsqr_abs.
  - split; [|apply sqrt_pos].
    rewrite sqrt_sqrt.
    + rewrite Q2R_plus.
      change ((?x ^ 2)%Q) with (x * x)%Q.
      rewrite !Q2R_mult, !Q2R_minus, !Q2R_inject_Z. reflexivity.
    + apply Rplus_le_le_0_compat; apply Rle_0_sqr.
Qed.

Lemma dist_ltb_distance s1 s2 w h :
  dist_ltb (diff_of s1 w h) (diff_of s2 w h) = true
  <-> (distance_mm s1 w h < distance_mm s2 w h)%R.
Proof.
  destruct (squared_diff_of s1 w h) as (q1 & E1 & V1 & P1).
  destruct (squared_diff_of s2 w h) as (q2 & E2 & V2 & P2).
  unfold dist_ltb. rewrite E1, E2, Qltb_lt.
  split; intros H.
  - apply Rsqr_incrst_0; try assumption.
    unfold Rsqr. rewrite <- V1, <- V2. now apply Qlt_Rlt.
  - apply Rlt_Qlt. rewrite V1, V2.
    now apply Rsqr_incrst_1.
Qed.

Lemma dist_ltb_distance_false s1 s2 w h :
  dist_ltb (diff_of s1 w h) (diff_of s2 w h) = false
  <-> (distance_mm s2 w h <= distance_mm s1 w h)%R.
Proof.
  split; intros H.
  - apply Rnot_lt_le. intros Hlt. apply dist_ltb_distance in Hlt. congruence.
  - destruct (dist_ltb (diff_of s1 w h) (diff_of s2 w h)) eqn:E;
      [|reflexivity].
    apply dist_ltb_distance in E. exfalso. exact (Rlt_not_le _ _ E H).
Qed.

(** The loop of [find_closest_size] over a non-empty candidate list. *)
Lemma closest_of_candidates w h (sizes : list BillSize) :
  sizes <> [] ->
  exists s pre post,
    fst (fold_left (closest_step w h) sizes (None, Inf)) = Some s
    /\ sizes = pre ++ s :: post
    /\ (forall x, In x pre -> (distance_mm s w h < distance_mm x w h)%R)
    /\ (forall x, In x post -> (distance_mm s w h <= distance_mm x w h)%R).
Proof.
  intros Hne.
  destruct (closest_fold w h sizes None Inf)
    as [[_ Hall] | (s & pre & post & Hsz & Hst & _ & Hpre & Hpost)].
  - destruct sizes as [|a rest]; [contradiction|].
    specialize (Hall a (or_introl eq_refl)).
    rewrite dist_ltb_Inf in Hall. discriminate.
  - exists s, pre, post. rewrite Hst.
    split; [reflexivity|]. split; [exact Hsz|].
    split; intros x Hx.
    + apply dist_ltb_distance. now apply Hpre.
    + apply dist_ltb_distance_false. now apply Hpost.
Qed.

(** ** [AutoLayoutEngine]: pagination *)


Section PageBatches.

Context {A : Type}.
Variable items : list A.
Variable k : Z.
Hypothesis k_pos : 0 < k.

Let batch (i : Z) : list A := slice i (i + k) items.

Lemma batch_window i :
  0 <= i -> batch i = firstn (Z.to_nat k) (skipn (Z.to_nat i) items).
Proof. intros Hi. apply slice_window; lia. Qed.

(** The batches from index [i] on are the items from [i] on. *)
Lemma batches_concat :
  forall fuel i,
    0 <= i ->
    (Z.to_nat (len items - i) <= fuel)%nat ->
    List.concat (map batch (range_from fuel i (len items) k))
    = skipn (Z.to_nat i) items.
Proof.
  induction fuel as [|fuel IH]; intros i Hi Hfuel; cbn [range_from].
  - cbn [map List.concat]. symmetry. apply skipn_all2. unfold len in *. lia.
  - destruct (Z.ltb_spec i (len items)) as [Hlt | Hge].
    + cbn [map List.concat]. rewrite IH by lia.
      rewrite batch_window by lia.
      replace (Z.to_nat (i + k)) with (Z.to_nat k + Z.to_nat i)%nat by lia.
      rewrite <- skipn_skipn. apply firstn_skipn.
    + cbn [map List.concat]. symmetry. apply skipn_all2. unfold len in *. lia.
Qed.

(** The number of batches from index [i] on. *)
Lemma batches_count :
  forall fuel i,
    (Z.to_nat (len items - i) <= fuel)%nat ->
    let c := len (range_from fuel i (len items) k) in
    (len items <= i -> c = 0)
    /\ (i < len items -> k * (c - 1) < len items - i <= k * c).
Proof.
  induction fuel as [|fuel IH]; intros i Hfuel; cbn [range_from].
  - cbn zeta. rewrite len_nil. split; [reflexivity | lia].
  - destruct (Z.ltb_spec i (len items)) as [Hlt | Hge]; cbn zeta.
    + rewrite len_cons.
      destruct (IH (i + k) ltac:(lia)) as [Hzero Hmore].
      split; [lia|]. intros _.
      destruct (Z_le_gt_dec (len items) (i + k)) as [Hlast | Hnext].
      * rewrite (Hzero Hlast). lia.
      * specialize (Hmore ltac:(lia)). lia.
    + rewrite len_nil. split; [reflexivity | lia].
Qed.

(** Every batch but the last holds exactly [k] items. *)
Lemma batches_full :
  forall fuel i j,
    0 <= i ->
    (S j < List.length (map batch (range_from fuel i (len items) k)))%nat ->
    len (nth j (map batch (range_from fuel i (len items) k)) []) = k.
Proof.
  induction fuel as [|fuel IH]; intros i j Hi; cbn [range_from].
  - cbn. lia.
  - destruct (Z.ltb_spec i (len items)) as [Hlt | Hge];
      [|cbn; lia].
    cbn [map List.length nth]. intros Hj.
    destruct j as [|j].
    + destruct fuel as [|fuel']; [cbn in Hj; lia|].
      cbn [range_from] in Hj.
      destruct (Z.ltb_spec (i + k) (len items)) as [Hnext | Hlast];
        [|cbn in Hj; lia].
      rewrite batch_window, len_firstn, len_skipn by lia. lia.
    + apply IH; lia.
Qed.

End PageBatches.

Lemma range0_positive stop step :
  0 < step -> range0 stop step = Ok (range_from (Z.to_nat stop) 0 stop step).
Proof.
  intros H. unfold range0.
  destruct (Z.eqb_spec step 0); [lia|].
  destruct (Z.ltb_spec step 0); [lia|]. reflexivity.
Qed.

(** [calculate_page_breaks] with a positive batch size, once pagination is
    needed. *)
Lemma calculate_page_breaks_paginated {A} config (items : list A) k :
  0 < k ->
  needs_pagination config
    (estimate_content_height config (len items) false false) = true ->
  calculate_page_breaks config items (Some k)
  = Ok (map (fun i => slice i (i + k) items)
          (range_from (Z.to_nat (len items)) 0 (len items) k)).
Proof.
  intros Hk Hpag. unfold calculate_page_breaks. rewrite Hpag. cbn [negb].
  destruct (Z.eqb_spec k 0); [lia|].
  now rewrite range0_positive.
Qed.

Lemma calculate_page_breaks_single {A} config (items : list A) ipp :
  needs_pagination config
    (estimate_content_height config (len items) false false) = false ->
  calculate_page_breaks config items ipp = Ok [items].
Proof.
  intros Hpag. unfold calculate_page_breaks. now rewrite Hpag.
Qed.

(** C2 (as amended).  With an explicit [items_per_page = k > 0],
    [calculate_page_breaks] returns batches whose concatenation is the item
    list.  When the estimated height of the list needs pagination there are
    [ceil(N / k)] of them and every batch but the last holds exactly [k]
    items; when it does not, the whole list is the single batch. *)
Theorem calculate_page_breaks_batches :
  forall (A : Type) (config : LayoutConfig) (items : list A) (k : Z),
    0 < k ->
    exists pages,
      calculate_page_breaks config items (Some k) = Ok pages
      /\ List.concat pages = items
      /\ (needs_pagination config
            (estimate_content_height config (len items) false false) = false
          -> pages = [items])
      /\ (needs_pagination config
            (estimate_content_height config (len items) false false) = true
          -> len pages = (len items + k - 1) / k
             /\ k * (len pages - 1) < len items <= k * len pages
             /\ forall j, (S j < List.length pages)%nat ->
                          len (nth j pages []) = k).
Proof.
  intros A config items k Hk.
  destruct (needs_pagination config
              (estimate_content_height config (len items) false false))
    eqn:Hpag.
  - eexists. split; [apply calculate_page_breaks_paginated; assumption|].
    pose proof (len_nonneg items) as HN.
    split; [|split; [discriminate|intros _]].
    + now rewrite (batches_concat items k Hk) by lia.
    + assert (k * (len (map (fun i => slice i (i + k) items)
                          (range_from (Z.to_nat (len items)) 0
                             (len items) k)) - 1)
              < len items
              <= k * len (map (fun i => slice i (i + k) items)
                            (range_from (Z.to_nat (len items)) 0
                               (len items) k))) as Hceil.
      { rewrite !len_map.
        destruct (batches_count items k Hk (Z.to_nat (len items)) 0
                    ltac:(lia)) as [Hzero Hmore].
        destruct (Z_le_gt_dec (len items) 0) as [Hempty | Hsome].
        - rewrite (Hzero Hempty). lia.
        - specialize (Hmore ltac:(lia)). lia. }
      split; [|split; [exact Hceil|]].
      * apply Z.div_unique_pos with
          (r := len items + k - 1
                - k * len (map (fun i => slice i (i + k) items)
                             (range_from (Z.to_nat (len items)) 0
                                (len items) k))); lia.
      * intros j Hj. apply (batches_full items k Hk); [lia | exact Hj].
  - exists [items].
    split; [now apply calculate_page_breaks_single|].
    split; [cbn; apply app_nil_r|].
    split; [reflexivity | discriminate].
Qed.

(** The pagination test of the suite: 50 items, 20 per page, on A5. *)
Lemma calculate_page_breaks_batches_witness :
  exists pages,
    calculate_page_breaks (get_default_config A5 CLASSIC)
      (seq 0 50) (Some 20) = Ok pages
    /\ List.concat pages = seq 0 50
    /\ (needs_pagination (get_default_config A5 CLASSIC)
          (estimate_content_height (get_default_config A5 CLASSIC)
             (len (seq 0 50)) false false) = false
        -> pages = [seq 0 50])
    /\ (needs_pagination (get_default_config A5 CLASSIC)
          (estimate_content_height (get_default_config A5 CLASSIC)
             (len (seq 0 50)) false false) = true
        -> len pages = (len (seq 0 50) + 20 - 1) / 20
           /\ 20 * (len pages - 1) < len (seq 0 50) <= 20 * len pages
           /\ forall j, (S j < List.length pages)%nat ->
                        len (nth j pages []) = 20).
Proof.
  apply (calculate_page_breaks_batches nat (get_default_config A5 CLASSIC)
           (seq 0 50) 20).
  lia.
Defined.

(** C2 as the specification words it fails: three items at one item per
    page on A4 do not need pagination and come back as one batch, not
    three. *)
Lemma calculate_page_breaks_short_list_one_batch :
  calculate_page_breaks (get_default_config A4 CLASSIC)
    [1; 2; 3]%nat (Some 1) = Ok [[1; 2; 3]%nat]
  /\ ~ (forall (config : LayoutConfig) (items : list nat) (k : Z),
           0 < k ->
           exists pages,
             calculate_page_breaks config items (Some k) = Ok pages
             /\ len pages = (len items + k - 1) / k
             /\ (forall j, (S j < List.length pages)%nat ->
                           len (nth j pages []) = k)
             /\ List.concat pages = items).
Proof.
  split; [reflexivity|].
  intros H.
  destruct (H (get_default_config A4 CLASSIC) [1; 2; 3]%nat 1 ltac:(lia))
    as (pages & Hcall & Hcount & _).
  vm_compute in Hcall. injection Hcall as <-.
  vm_compute in Hcount. discriminate.
Qed.

Lemma default_config_size sz st :
  size (get_default_config sz st) = sz.
Proof. reflexivity. Qed.







(** ** [AutoLayoutEngine]: item names *)

Lemma split_from_blank s :
  forallb is_space s = true -> split_from [] s = [].
Proof.
  induction s as [|c rest IH]; cbn [forallb split_from]; [reflexivity|].
  intros H. apply andb_true_iff in H as [Hc Hrest].
  rewrite Hc. now apply IH.
Qed.




(** Every default configuration of a paper size wraps item names and
    allows three lines. *)
Lemma default_paper_config_limits sz st :
  is_thermal sz = false ->
  wrap_item_names (get_default_config sz st) = true
  /\ max_lines_per_item (get_default_config sz st) = 3.
Proof.
  intros H. cbn [get_default_config wrap_item_names max_lines_per_item].
  rewrite H. split; reflexivity.
Qed.







(** * The repository's own tests, run on the embedding *)

Module Tests.

Example test_margin_validation :
  validate_margins (mkMargins 10 10 10 10) (lit "paper") = Ok (true, [])
  /\ (exists message,
         validate_margins (mkMargins 2 2 2 2) (lit "paper")
         = Ok (false, message)
         /\ contains (lit "too small") message = true)
  /\ validate_margins (mkMargins 2 2 2 2) (lit "thermal") = Ok (true, []).
Proof.
  split; [reflexivity|]. split; [|reflexivity].
  eexists. split; reflexivity.
Qed.

Example test_margin_message :
  validate_margins (mkMargins 2 6 2 1) (lit "paper")
  = Ok (false,
        lit "Top margin too small (min: 5mm); "
        ++ lit "Bottom margin too small (min: 5mm); "
        ++ lit "Left margin too small (min: 5mm)").
Proof. reflexivity. Qed.

Example test_zero_margins_validation :
  (exists message,
      validate_margins (mkMargins 0 0 0 0) (lit "paper")
      = Ok (false, message))
  /\ (exists message,
         validate_margins (mkMargins 0 0 0 0) (lit "thermal")
         = Ok (false, message)).
Proof. split; eexists; reflexivity. Qed.

Example test_find_closest_size :
  find_closest_size 215 300 false = Some A4
  /\ find_closest_size 78 0 true = Some THERMAL_76.
Proof. split; reflexivity. Qed.

Example test_item_layout_paper :
  calculate_item_layout (get_default_config A4 CLASSIC) (lit "Coffee")
  = Ok (mkItemLayout (lit "Coffee") [lit "Coffee"] false)
  /\ calculate_item_layout (get_default_config A4 CLASSIC)
       (lit "Extra Large Cappuccino with Double Shot "
        ++ lit "Espresso and Whipped Cream")
     = Ok (mkItemLayout
             (lit "Extra Large Cappuccino with Double Shot "
              ++ lit "Espresso and Whipped Cream")
             [lit "Extra Large Cappuccino with Double Shot";
              lit "Espresso and Whipped Cream"]
             false).
Proof. split; reflexivity. Qed.

Example test_item_layout_thermal :
  calculate_item_layout (get_default_config THERMAL_80 COMPACT)
    (lit "Extra Large Cappuccino with Double Shot")
  = Ok (mkItemLayout (lit "Extra Larg...") [lit "Extra Larg..."] true).
Proof. reflexivity. Qed.

Example test_pagination :
  match calculate_page_breaks (get_default_config A5 CLASSIC)
          (seq 0 50) (Some 20) with
  | Ok pages => map (@List.length nat) pages = [20; 20; 10]%nat
  | Raise _ => False
  end.
Proof. reflexivity. Qed.

Example test_empty_order_items :
  calculate_page_breaks (get_default_config A4 CLASSIC) (@nil nat) None
  = Ok [[]].
Proof. reflexivity. Qed.

Example test_text_truncation :
  optimize_for_thermal
    (lit "This is a very long text that needs truncation") 20
  = lit "This is a very lo..."
  /\ optimize_for_thermal (lit "Short") 20 = lit "Short".
Proof. split; reflexivity. Qed.

Example test_line_formatting :
  format_thermal_line (lit "Item") (lit "Rs100.00") 32
  = lit "Item                    Rs100.00"
  /\ format_thermal_line (lit "Very Long Item Name That Exceeds Width")
       (lit "Rs999.99") 32
     = lit "Very Long Item...       Rs999.99".
Proof. split; reflexivity. Qed.

End Tests.

(** * Further properties of the module *)

(** ** Slices with a bound of known sign *)

Lemma slice_to_nonneg {A} n (l : list A) :
  0 <= n -> slice_to n l = firstn (Z.to_nat n) l.
Proof.
  intros Hn. unfold slice_to.
  change n with (0 + n) at 1.
  now rewrite slice_window by lia.
Qed.

Lemma slice_to_negative {A} n (l : list A) :
  n < 0 -> slice_to n l = firstn (List.length l - Z.to_nat (- n)) l.
Proof.
  intros Hn. unfold slice_to, slice, clamp_index.
  change (0 <? 0) with false. cbv iota.
  destruct (Z.ltb_spec n 0); [|lia].
  pose proof (len_nonneg l) as Hl.
  rewrite Z.min_l by lia. cbn [Z.to_nat skipn].
  f_equal. unfold len. lia.
Qed.

(** ** [ThermalOptimizer] *)

(** X1.  For a non-negative width [optimize_for_thermal] never returns
    more than [width_chars] characters.  A text that fits comes back
    unchanged; one that does not is cut to exactly [width_chars]
    characters, the last three of them ["..."] when the width is above 3
    and a bare prefix of the text otherwise. *)
Theorem optimize_for_thermal_cut :
  forall (text : str) (width_chars : Z),
    0 <= width_chars ->
    len (optimize_for_thermal text width_chars) <= width_chars
    /\ (len text <= width_chars ->
        optimize_for_thermal text width_chars = text)
    /\ (width_chars < len text ->
        len (optimize_for_thermal text width_chars) = width_chars
        /\ (3 < width_chars ->
            optimize_for_thermal text width_chars
            = firstn (Z.to_nat (width_chars - 3)) text ++ lit "...")
        /\ (width_chars <= 3 ->
            optimize_for_thermal text width_chars
            = firstn (Z.to_nat width_chars) text)).
Proof.
  intros text w Hw.
  split; [now apply optimize_for_thermal_fits|].
  unfold optimize_for_thermal.
  split.
  - intros Hfit. destruct (Z.leb_spec (len text) w); [reflexivity | lia].
  - intros Hlong. destruct (Z.leb_spec (len text) w); [lia|].
    destruct (Z.ltb_spec 3 w).
    + rewrite slice_to_nonneg by lia.
      split; [|split; [reflexivity | lia]].
      rewrite len_app, len_firstn. change (len (lit "...")) with 3. lia.
    + rewrite slice_to_nonneg by lia.
      split; [|split; [lia | reflexivity]].
      rewrite len_firstn. lia.
Qed.

Lemma optimize_for_thermal_cut_witness :
  optimize_for_thermal (lit "Total: 1,234.56 rupees") 20
  = lit "Total: 1,234.56 r..."
  /\ optimize_for_thermal (lit "abcdef") 2 = lit "ab".
Proof.
  split.
  - apply (optimize_for_thermal_cut (lit "Total: 1,234.56 rupees") 20);
      [lia | reflexivity | reflexivity].
  - apply (optimize_for_thermal_cut (lit "abcdef") 2);
      [lia | reflexivity | lia].
Defined.

(** X2.  Truncating twice to the same non-negative width is truncating
    once. *)
Theorem optimize_for_thermal_idempotent :
  forall (text : str) (width_chars : Z),
    0 <= width_chars ->
    optimize_for_thermal (optimize_for_thermal text width_chars) width_chars
    = optimize_for_thermal text width_chars.
Proof.
  intros text w Hw.
  pose proof (optimize_for_thermal_fits text w Hw) as Hfit.
  unfold optimize_for_thermal at 1.
  destruct (Z.leb_spec (len (optimize_for_thermal text w)) w);
    [reflexivity | lia].
Qed.

Lemma optimize_for_thermal_idempotent_witness :
  optimize_for_thermal
    (optimize_for_thermal (lit "This is a very long text") 10) 10
  = optimize_for_thermal (lit "This is a very long text") 10.
Proof.
  apply (optimize_for_thermal_idempotent (lit "This is a very long text") 10).
  lia.
Defined.

(** X3.  A negative width is taken as a slice bound counted from the
    end: the result is the text without its last [-width_chars] characters
    and without an ellipsis, [max(len(text) + width_chars, 0)] characters
    long, and so empty when the text has at most [-width_chars]
    characters. *)
Theorem optimize_for_thermal_negative_width :
  forall (text : str) (width_chars : Z),
    width_chars < 0 ->
    optimize_for_thermal text width_chars
    = firstn (List.length text - Z.to_nat (- width_chars)) text
    /\ len (optimize_for_thermal text width_chars)
       = Z.max 0 (len text + width_chars)
    /\ (len text <= - width_chars ->
        optimize_for_thermal text width_chars = []).
Proof.
  intros text w Hw.
  pose proof (len_nonneg text) as Hlen.
  assert (optimize_for_thermal text w
          = firstn (List.length text - Z.to_nat (- w)) text) as Hcut.
  { unfold optimize_for_thermal.
    destruct (Z.leb_spec (len text) w); [lia|].
    destruct (Z.ltb_spec 3 w); [lia|].
    now apply slice_to_negative. }
  split; [exact Hcut|]. rewrite Hcut. split.
  - rewrite len_firstn. unfold len in *. lia.
  - intros Hshort.
    replace (List.length text - Z.to_nat (- w))%nat with 0%nat
      by (unfold len in *; lia).
    reflexivity.
Qed.

Lemma optimize_for_thermal_negative_width_witness :
  optimize_for_thermal (lit "abcdef") (-2) = lit "abcd"
  /\ optimize_for_thermal (lit "abcdef") (-6) = [].
Proof.
  split.
  - apply (optimize_for_thermal_negative_width (lit "abcdef") (-2)). lia.
  - apply (optimize_for_thermal_negative_width (lit "abcdef") (-6));
      [lia | reflexivity].
Defined.

(** X4.  [center_text] never returns more than [width] characters (for a
    non-negative width).  A text shorter than the width gets
    [floor((width - len) / 2)] leading spaces and no trailing ones, so the
    result is strictly shorter than [width] and the room left on the right
    is the left padding or one more. *)
Theorem center_text_left_biased :
  forall (text : str) (width : Z),
    0 <= width ->
    len (center_text text width) <= width
    /\ (len text < width ->
        let padding := (width - len text) / 2 in
        center_text text width = repeat 32%N (Z.to_nat padding) ++ text
        /\ len (center_text text width) < width
        /\ padding <= width - len (center_text text width) <= padding + 1).
Proof.
  intros text w Hw. unfold center_text.
  pose proof (len_nonneg text) as Ht.
  destruct (Z.leb_spec w (len text)) as [Hlong | Hshort].
  - split; [now apply optimize_for_thermal_fits | lia].
  - assert (0 <= (w - len text) / 2) as Hp0 by (apply Z.div_pos; lia).
    assert (2 * ((w - len text) / 2) <= w - len text) as Hp1
      by (apply Z.mul_div_le; lia).
    assert (w - len text < 2 * ((w - len text) / 2) + 2) as Hp2.
    { pose proof (Z.mod_pos_bound (w - len text) 2 ltac:(lia)).
      pose proof (Z.div_mod (w - len text) 2 ltac:(lia)). lia. }
    assert (len (str_mul 32%N ((w - len text) / 2) ++ text)
            = (w - len text) / 2 + len text) as Hlen
      by (rewrite len_app, len_str_mul; lia).
    split; [lia|]. intros _. cbv zeta.
    split; [reflexivity|]. lia.
Qed.

Lemma center_text_left_biased_witness :
  center_text (lit "RECEIPT") 32 = repeat 32%N 12 ++ lit "RECEIPT"
  /\ len (center_text (repeat 65%N 40) 32) <= 32.
Proof.
  split.
  - apply (center_text_left_biased (lit "RECEIPT") 32); [lia | reflexivity].
  - apply (center_text_left_biased (repeat 65%N 40) 32). lia.
Defined.

(** X5.  [format_thermal_line] never returns fewer than [width]
    characters, whatever the width.  When the fields overflow a width of
    at least 3, each is truncated by [optimize_for_thermal] to its share
    of [width - 3] (60% for the left field, rounded down, the rest for the
    right one) and at least three spaces separate them. *)
Theorem format_thermal_line_shares :
  forall (l r : str) (width : Z),
    width <= len (format_thermal_line l r width)
    /\ (3 <= width -> width < len l + len r ->
        let left_chars := Z.quot (6 * (width - 3)) 10 in
        let right_chars := width - 3 - left_chars in
        let l' := optimize_for_thermal l left_chars in
        let r' := optimize_for_thermal r right_chars in
        format_thermal_line l r width
        = l' ++ repeat 32%N (Z.to_nat (width - len l' - len r')) ++ r'
        /\ len l' <= left_chars
        /\ len r' <= right_chars
        /\ 3 <= width - len l' - len r').
Proof.
  intros l r width. split.
  - rewrite format_thermal_line_len.
    destruct (width - len l - len r <? 0); cbv beta iota zeta; lia.
  - intros H3 Hover. cbv zeta.
    assert (py_int (inject_Z (width - 3) * (6 # 10))
            = Z.quot (6 * (width - 3)) 10) as Hshare.
    { unfold py_int. cbn [Qnum Qden Qmult inject_Z].
      f_equal. lia. }
    pose proof (left_share_bounds (width - 3) ltac:(lia)) as Hb.
    rewrite Hshare in Hb.
    pose proof (optimize_for_thermal_fits l _ (proj1 Hb)) as Hl.
    pose proof (optimize_for_thermal_fits r
                  (width - 3 - Z.quot (6 * (width - 3)) 10) ltac:(lia))
      as Hr.
    split; [|lia].
    unfold format_thermal_line.
    destruct (Z.ltb_spec (width - len l - len r) 0); [|lia].
    rewrite Hshare. unfold str_mul.
    rewrite Z.max_l by lia. reflexivity.
Qed.

Lemma format_thermal_line_shares_witness :
  format_thermal_line (lit "Very Long Item Name That Exceeds Width")
    (lit "Rs999.99") 32
  = lit "Very Long Item..." ++ repeat 32%N 7 ++ lit "Rs999.99".
Proof.
  apply (format_thermal_line_shares
           (lit "Very Long Item Name That Exceeds Width")
           (lit "Rs999.99") 32); [lia | reflexivity].
Defined.

(** ** [AutoLayoutEngine]: item names *)

Lemma item_budget_lt c n :
  (inject_Z c * (45 # 100) < inject_Z n)%Q <-> 45 * c < 100 * n.
Proof. unfold Qlt. cbn [Qnum Qden Qmult inject_Z]. lia. Qed.

Lemma item_budget_max_chars c :
  py_int (inject_Z c * (45 # 100) - 3) = Z.quot (45 * c - 300) 100.
Proof.
  unfold py_int. cbn [Qnum Qden Qmult Qminus Qplus Qopp inject_Z].
  f_equal. lia.
Qed.

(** X6.  On a thermal configuration [calculate_item_layout] never raises
    and returns the display name as its only line.  The name is truncated
    exactly when it is longer than 45% of [chars_per_line]; an untruncated
    name is displayed as it is, a truncated one is a prefix of the name
    followed by ["..."], and from 7 characters per line on the truncated
    display name fits the 45% budget. *)
Theorem calculate_item_layout_thermal :
  forall (config : LayoutConfig) (item_name : str),
    is_thermal (size config) = true ->
    exists r,
      calculate_item_layout config item_name = Ok r
      /\ lines r = [display_name r]
      /\ (truncated r = true
          <-> 45 * chars_per_line config < 100 * len item_name)
      /\ (truncated r = false -> display_name r = item_name)
      /\ (truncated r = true ->
          exists kept,
            display_name r = firstn kept item_name ++ lit "..."
            /\ (7 <= chars_per_line config ->
                Z.of_nat kept
                = Z.quot (45 * chars_per_line config - 300) 100
                /\ 100 * len (display_name r)
                   <= 45 * chars_per_line config)).
Proof.
  intros config item_name Hthermal.
  unfold calculate_item_layout. rewrite Hthermal.
  set (c := chars_per_line config).
  destruct (Qltb (inject_Z c * (45 # 100)) (inject_Z (len item_name)))
    eqn:Hcmp.
  - apply Qltb_lt, item_budget_lt in Hcmp.
    eexists. split; [reflexivity|]. cbn [lines display_name truncated].
    split; [reflexivity|]. split; [tauto|]. split; [discriminate|].
    intros _. rewrite item_budget_max_chars.
    destruct (Z_lt_le_dec (Z.quot (45 * c - 300) 100) 0) as [Hneg | Hpos].
    + rewrite slice_to_negative by exact Hneg.
      eexists. split; [reflexivity|]. intros Hc.
      assert (0 <= Z.quot (45 * c - 300) 100) by (apply Z.quot_pos; lia).
      lia.
    + rewrite slice_to_nonneg by exact Hpos.
      eexists. split; [reflexivity|]. intros Hc.
      split; [lia|].
      rewrite len_app, len_firstn. change (len (lit "...")) with 3.
      pose proof (Z.mul_quot_le (45 * c - 300) 100 ltac:(lia) ltac:(lia)).
      lia.
  - apply Qltb_ge in Hcmp.
    assert (~ 45 * c < 100 * len item_name) as Hnot.
    { intros Hlt. apply item_budget_lt in Hlt.
      exact (Qlt_not_le _ _ Hlt Hcmp). }
    eexists. split; [reflexivity|]. cbn [lines display_name truncated].
    split; [reflexivity|].
    split; [split; [discriminate | intros Hlt; contradiction]|].
    split; [reflexivity | discriminate].
Qed.

Lemma calculate_item_layout_thermal_witness :
  exists r,
    calculate_item_layout (get_default_config THERMAL_80 COMPACT)
      (lit "Extra Large Cappuccino with Double Shot") = Ok r
    /\ lines r = [display_name r]
    /\ (truncated r = true <-> 45 * 30 < 100 * 39)
    /\ (truncated r = false ->
        display_name r = lit "Extra Large Cappuccino with Double Shot")
    /\ (truncated r = true ->
        exists kept,
          display_name r
          = firstn kept (lit "Extra Large Cappuccino with Double Shot")
            ++ lit "..."
          /\ (7 <= 30 ->
              Z.of_nat kept = Z.quot (45 * 30 - 300) 100
              /\ 100 * len (display_name r) <= 45 * 30)).
Proof.
  apply (calculate_item_layout_thermal
           (get_default_config THERMAL_80 COMPACT)
           (lit "Extra Large Cappuccino with Double Shot")).
  reflexivity.
Defined.

(** *** The wrapping loop *)

Lemma join_snoc sep (a : list str) w :
  a <> [] -> join sep (a ++ [w]) = join sep a ++ sep ++ w.
Proof.
  induction a as [|x rest IH]; [contradiction|]. intros _.
  destruct rest as [|y rest'].
  - reflexivity.
  - change (join sep ((x :: y :: rest') ++ [w]))
      with (x ++ sep ++ join sep ((y :: rest') ++ [w])).
    rewrite IH by discriminate.
    change (join sep (x :: y :: rest'))
      with (x ++ sep ++ join sep (y :: rest')).
    now rewrite <- !app_assoc.
Qed.

Lemma join_snoc_app sep (a : list str) x y :
  join sep (a ++ [x ++ y]) = join sep (a ++ [x]) ++ y.
Proof.
  induction a as [|z rest IH]; [reflexivity|].
  destruct rest as [|z' rest'].
  - cbn [app join]. now rewrite <- !app_assoc.
  - change (join sep ((z :: z' :: rest') ++ [x ++ y]))
      with (z ++ sep ++ join sep ((z' :: rest') ++ [x ++ y])).
    rewrite IH.
    change (join sep ((z :: z' :: rest') ++ [x]))
      with (z ++ sep ++ join sep ((z' :: rest') ++ [x])).
    now rewrite <- !app_assoc.
Qed.

Lemma wrap_words_flush words :
  wrap_words words = flush (fold_left wrap_step words ([], [])).
Proof.
  unfold wrap_words, flush.
  destruct (fold_left wrap_step words ([], [])) as [ls cur].
  reflexivity.
Qed.

Lemma wrap_step_inv seen st w :
  wrap_inv seen st -> wrap_inv (seen ++ [w]) (wrap_step st w).
Proof.
  intros [[-> ->] | (Hseen & Hcur & Hjoin)].
  - right. unfold wrap_step. cbn [app join].
    destruct (len w <=? 40);
      (split; [discriminate|]; split; [discriminate | reflexivity]).
  - right. destruct st as [ls cur]. cbn [snd] in Hcur.
    split; [now destruct seen|].
    unfold wrap_step.
    destruct cur as [|c0 cur']; [contradiction|].
    unfold flush in Hjoin. cbn [fst snd] in Hjoin.
    destruct (len (join (lit " ") ((c0 :: cur') ++ [w])) <=? 40).
    + split; [now destruct cur'|].
      unfold flush. cbn [fst snd app].
      change (c0 :: cur' ++ [w]) with ((c0 :: cur') ++ [w]).
      rewrite (join_snoc (lit " ") (c0 :: cur')) by discriminate.
      rewrite join_snoc_app.
      rewrite (join_snoc (lit " ") seen) by exact Hseen.
      exact (f_equal (fun t => t ++ lit " " ++ w) Hjoin).
    + split; [discriminate|].
      unfold flush. cbn [fst snd].
      change (join (lit " ") [w]) with w.
      rewrite (join_snoc (lit " ") (ls ++ [join (lit " ") (c0 :: cur')]))
        by (now destruct ls).
      rewrite (join_snoc (lit " ") seen) by exact Hseen.
      exact (f_equal (fun t => t ++ lit " " ++ w) Hjoin).
Qed.

Lemma wrap_fold_inv words :
  forall seen st,
    wrap_inv seen st ->
    wrap_inv (seen ++ words) (fold_left wrap_step words st).
Proof.
  induction words as [|w rest IH]; intros seen st Hinv; cbn [fold_left].
  - now rewrite app_nil_r.
  - replace (seen ++ w :: rest) with ((seen ++ [w]) ++ rest)
      by (now rewrite <- app_assoc).
    apply IH. now apply wrap_step_inv.
Qed.

Lemma wrap_words_join words :
  join (lit " ") (wrap_words words) = join (lit " ") words.
Proof.
  rewrite wrap_words_flush.
  destruct (wrap_fold_inv words [] ([], []) (or_introl (conj eq_refl eq_refl)))
    as [[Hnil Hst] | (_ & _ & Hjoin)].
  - cbn [app] in Hnil. subst words. reflexivity.
  - exact Hjoin.
Qed.

Lemma wrap_fold_lines_ok all words :
  forall st,
    (forall w, In w words -> In w all) ->
    Forall (line_ok all) (flush st) ->
    Forall (line_ok all) (flush (fold_left wrap_step words st)).
Proof.
  induction words as [|w rest IH]; intros st Hsub Hok; cbn [fold_left];
    [exact Hok|].
  apply IH; [intros x Hx; apply Hsub; now right|].
  destruct st as [ls cur]. unfold wrap_step.
  destruct (Z.leb_spec (len (join (lit " ") (cur ++ [w]))) 40) as [Hfit | _].
  - unfold flush in *. cbn [fst snd] in *.
    assert (Forall (line_ok all) ls) as Hls.
    { destruct cur; [exact Hok|].
      apply Forall_app in Hok. tauto. }
    destruct (cur ++ [w]) eqn:E; [now destruct cur|].
    apply Forall_app. split; [exact Hls|].
    constructor; [|constructor]. now left.
  - assert (Forall (line_ok all)
              (match cur with
               | [] => ls
               | _ :: _ => ls ++ [join (lit " ") cur]
               end)) as Hls by (destruct cur; exact Hok).
    unfold flush. cbn [fst snd].
    change (join (lit " ") [w]) with w.
    apply Forall_app. split; [exact Hls|].
    constructor; [|constructor]. right. apply Hsub. now left.
Qed.

Lemma wrap_words_lines_ok words :
  Forall (line_ok words) (wrap_words words).
Proof.
  rewrite wrap_words_flush.
  apply wrap_fold_lines_ok; [auto | constructor].
Qed.

(** X7.  On a paper configuration with wrapping, a layout that is not
    marked truncated has lost no word: its lines joined by single spaces
    are the words of the name joined by single spaces.  Every line is
    within the 40-character budget or is a single word of the name. *)
Theorem calculate_item_layout_wrapped_lines :
  forall (config : LayoutConfig) (item_name : str) (r : ItemLayout),
    is_thermal (size config) = false ->
    wrap_item_names config = true ->
    calculate_item_layout config item_name = Ok r ->
    truncated r = false ->
    join (lit " ") (lines r) = join (lit " ") (split item_name)
    /\ Forall (fun line => len line <= 40 \/ In line (split item_name))
         (lines r).
Proof.
  intros config item_name r Hpaper Hwrap Hcall Hfull.
  unfold calculate_item_layout in Hcall. rewrite Hpaper, Hwrap in Hcall.
  destruct (max_lines_per_item config <? _) in Hcall.
  - destruct (ellipsize_last _) in Hcall; [|discriminate].
    injection Hcall as <-. discriminate Hfull.
  - injection Hcall as <-. cbn [lines].
    split; [apply wrap_words_join | apply wrap_words_lines_ok].
Qed.

Lemma calculate_item_layout_wrapped_lines_witness :
  join (lit " ")
    [lit "Extra Large Cappuccino with Double Shot";
     lit "Espresso and Whipped Cream"]
  = join (lit " ")
      (split (lit "Extra  Large Cappuccino with Double Shot "
              ++ lit "Espresso and   Whipped Cream ")).
Proof.
  apply (calculate_item_layout_wrapped_lines
           (get_default_config A4 CLASSIC)
           (lit "Extra  Large Cappuccino with Double Shot "
            ++ lit "Espresso and   Whipped Cream ")
           (mkItemLayout
              (lit "Extra  Large Cappuccino with Double Shot "
               ++ lit "Espresso and   Whipped Cream ")
              [lit "Extra Large Cappuccino with Double Shot";
               lit "Espresso and Whipped Cream"] false));
    reflexivity.
Defined.

Lemma ellipsize_last_shape (l l' : list str) :
  ellipsize_last l = Ok l' ->
  exists kept final,
    l = kept ++ [final]
    /\ l' = kept ++ [slice_to (-3) final ++ lit "..."].
Proof.
  destruct l as [|x rest]; [discriminate|].
  intros H. unfold ellipsize_last in H. injection H as <-.
  exists (removelast (x :: rest)), (last (x :: rest) x).
  split; [apply app_removelast_last; discriminate | reflexivity].
Qed.

(** X8.  On a paper configuration with wrapping and a line limit that is
    not negative, a layout marked truncated has exactly
    [max_lines_per_item] lines; the last one ends in ["..."], and the lines
    before it are within the 40-character budget or single words. *)
Theorem calculate_item_layout_truncated_lines :
  forall (config : LayoutConfig) (item_name : str) (r : ItemLayout),
    is_thermal (size config) = false ->
    wrap_item_names config = true ->
    0 <= max_lines_per_item config ->
    calculate_item_layout config item_name = Ok r ->
    truncated r = true ->
    len (lines r) = max_lines_per_item config
    /\ exists kept body,
         lines r = kept ++ [body ++ lit "..."]
         /\ Forall (fun line => len line <= 40 \/ In line (split item_name))
              kept.
Proof.
  intros config item_name r Hpaper Hwrap Hmax Hcall Htrunc.
  unfold calculate_item_layout in Hcall. rewrite Hpaper, Hwrap in Hcall.
  set (wrapped := wrap_words (split item_name)) in Hcall.
  destruct (Z.ltb_spec (max_lines_per_item config) (len wrapped))
    as [Hover | _]; [|injection Hcall as <-; discriminate Htrunc].
  rewrite slice_to_nonneg in Hcall by exact Hmax.
  set (cut := firstn (Z.to_nat (max_lines_per_item config)) wrapped)
    in Hcall.
  assert (len cut = max_lines_per_item config) as Hcut
    by (unfold cut; rewrite len_firstn; lia).
  assert (Forall (line_ok (split item_name)) cut) as Hok.
  { pose proof (wrap_words_lines_ok (split item_name)) as Hall.
    fold wrapped in Hall.
    rewrite <- (firstn_skipn (Z.to_nat (max_lines_per_item config)) wrapped)
      in Hall.
    apply Forall_app in Hall. exact (proj1 Hall). }
  destruct (ellipsize_last cut) as [cut'|] eqn:Ecall; [|discriminate Hcall].
  injection Hcall as <-. cbn [lines].
  destruct (ellipsize_last_shape _ _ Ecall) as (kept & final & Hsplit & ->).
  rewrite Hsplit in Hcut, Hok.
  split.
  - rewrite len_app, len_cons, len_nil in *. lia.
  - exists kept, (slice_to (-3) final).
    split; [reflexivity|].
    apply Forall_app in Hok. exact (proj1 Hok).
Qed.

Lemma calculate_item_layout_truncated_lines_witness :
  len [lit "aaaaaaaaaaaaaaaaaaaaaaaaa"; lit "bbbbbbbbbbbbbbbbbbbbbbbbb";
       lit "cccccccccccccccccccccc..."]
  = max_lines_per_item (get_default_config A4 CLASSIC).
Proof.
  apply (calculate_item_layout_truncated_lines
           (get_default_config A4 CLASSIC)
           (lit "aaaaaaaaaaaaaaaaaaaaaaaaa bbbbbbbbbbbbbbbbbbbbbbbbb "
            ++ lit "ccccccccccccccccccccccccc ddddddddddddddddddddddddd")
           (mkItemLayout
              (lit "aaaaaaaaaaaaaaaaaaaaaaaaa bbbbbbbbbbbbbbbbbbbbbbbbb "
               ++ lit "ccccccccccccccccccccccccc ddddddddddddddddddddddddd")
              [lit "aaaaaaaaaaaaaaaaaaaaaaaaa";
               lit "bbbbbbbbbbbbbbbbbbbbbbbbb";
               lit "cccccccccccccccccccccc..."] true));
    try reflexivity.
  discriminate.
Defined.

Lemma split_from_nonempty s :
  forall cur,
    cur <> [] \/ (exists c, In c s /\ is_space c = false) ->
    split_from cur s <> [].
Proof.
  induction s as [|c rest IH]; intros cur Hsome; cbn [split_from].
  - destruct Hsome as [Hcur | (c & [] & _)]. now destruct cur.
  - destruct (is_space c) eqn:Ec.
    + destruct cur; [|discriminate].
      apply IH. right.
      destruct Hsome as [Hcur | (c' & [<- | Hin] & Hc')];
        [contradiction | congruence | now exists c'].
    + apply IH. left. now destruct cur.
Qed.

Lemma wrap_words_nonempty words : words <> [] -> wrap_words words <> [].
Proof.
  intros Hne. rewrite wrap_words_flush.
  destruct (wrap_fold_inv words [] ([], []) (or_introl (conj eq_refl eq_refl)))
    as [[Hnil _] | (_ & Hcur & _)]; [contradiction|].
  unfold flush.
  destruct (snd (fold_left wrap_step words ([], []))); [contradiction|].
  now destruct (fst (fold_left wrap_step words ([], []))).
Qed.

(** X9.  The line limit is applied without a guard for an empty result:
    on a paper configuration with wrapping, a limit of 0 makes every name
    with a visible character raise [IndexError], and a negative limit
    makes every empty or all-white-space name raise it. *)
Theorem calculate_item_layout_limit_raises :
  forall (config : LayoutConfig) (item_name : str),
    is_thermal (size config) = false ->
    wrap_item_names config = true ->
    (max_lines_per_item config = 0 ->
     (exists c, In c item_name /\ is_space c = false) ->
     calculate_item_layout config item_name = Raise IndexError)
    /\ (max_lines_per_item config < 0 ->
        forallb is_space item_name = true ->
        calculate_item_layout config item_name = Raise IndexError).
Proof.
  intros config item_name Hpaper Hwrap.
  unfold calculate_item_layout. rewrite Hpaper, Hwrap.
  split.
  - intros Hzero Hvisible. rewrite Hzero.
    assert (wrap_words (split item_name) <> []) as Hne.
    { apply wrap_words_nonempty. apply split_from_nonempty. now right. }
    destruct (wrap_words (split item_name)) as [|x rest] eqn:E;
      [contradiction|].
    destruct (Z.ltb_spec 0 (len (x :: rest))) as [_ | Hle];
      [reflexivity|].
    rewrite len_cons in Hle. pose proof (len_nonneg rest). lia.
  - intros Hneg Hblank.
    unfold split. rewrite (split_from_blank _ Hblank).
    change (wrap_words []) with (@nil str). rewrite len_nil.
    destruct (Z.ltb_spec (max_lines_per_item config) 0); [|lia].
    rewrite slice_to_negative by exact Hneg. reflexivity.
Qed.

Lemma calculate_item_layout_limit_raises_witness :
  calculate_item_layout
    (with_max_lines_per_item (get_default_config A4 CLASSIC) 0)
    (lit "Coffee") = Raise IndexError
  /\ calculate_item_layout
       (with_max_lines_per_item (get_default_config A4 CLASSIC) (-1))
       (lit "  ") = Raise IndexError.
Proof.
  split.
  - apply (proj1 (calculate_item_layout_limit_raises
                    (with_max_lines_per_item (get_default_config A4 CLASSIC) 0)
                    (lit "Coffee") eq_refl eq_refl));
      [reflexivity|].
    exists 67%N. split; [now left | reflexivity].
  - apply (proj2 (calculate_item_layout_limit_raises
                    (with_max_lines_per_item (get_default_config A4 CLASSIC)
                       (-1))
                    (lit "  ") eq_refl eq_refl));
      reflexivity.
Defined.

(** ** [AutoLayoutEngine]: pagination *)

Lemma py_int_zero_iff (q : Q) :
  (0 <= q)%Q -> (py_int q = 0 <-> (q < 1)%Q).
Proof.
  destruct q as [n d]. unfold py_int, Qle, Qlt. cbn [Qnum Qden].
  intros Hn. rewrite Z.quot_small_iff by lia. lia.
Qed.

(** X10.  [calculate_page_breaks] raises nothing but [ValueError], and
    raises it exactly when pagination is needed, no non-zero
    [items_per_page] was supplied and the derived batch size is 0; for a
    printable height that is not negative that is when 60% of it is less
    than one row. *)
Theorem calculate_page_breaks_raises :
  forall (A : Type) (config : LayoutConfig) (items : list A)
         (items_per_page : option Z),
    (forall e,
        calculate_page_breaks config items items_per_page = Raise e
        <-> (e = ValueError
             /\ needs_pagination config
                  (estimate_content_height config (len items) false false)
                = true
             /\ (items_per_page = None \/ items_per_page = Some 0)
             /\ derived_items_per_page config = 0))
    /\ ((0 <= printable_height_mm config)%Q ->
        (derived_items_per_page config = 0
         <-> (printable_height_mm config * (6 # 10)
              < inject_Z (item_row_height config))%Q)).
Proof.
  intros A config items ipp. split.
  - intros e. unfold calculate_page_breaks.
    destruct (needs_pagination config _) eqn:Hpag; cbn [negb].
    + assert (forall k,
                 range0 (len items) k = Raise ValueError /\ k = 0
                 \/ (exists starts, range0 (len items) k = Ok starts)
                    /\ k <> 0) as Hrange.
      { intros k. unfold range0.
        destruct (Z.eqb_spec k 0); [now left|].
        right. split; [|assumption].
        destruct (k <? 0); eexists; reflexivity. }
      destruct ipp as [k|].
      * destruct (Z.eqb_spec k 0) as [-> | Hk].
        -- destruct (Hrange (derived_items_per_page config))
             as [[-> Hz] | [[starts ->] Hnz]].
           ++ split; [intros [= <-]; tauto | intros (-> & _); reflexivity].
           ++ split; [discriminate | intros (_ & _ & _ & Hz); contradiction].
        -- destruct (Hrange k) as [[_ Hz] | [[starts ->] _]];
             [contradiction|].
           split; [discriminate|].
           intros (_ & _ & [Hn | [= Hs]] & _); [discriminate | contradiction].
      * destruct (Hrange (derived_items_per_page config))
          as [[-> Hz] | [[starts ->] Hnz]].
        -- split; [intros [= <-]; tauto | intros (-> & _); reflexivity].
        -- split; [discriminate | intros (_ & _ & _ & Hz); contradiction].
    + split; [discriminate | intros (_ & Hf & _); discriminate].
  - intros Hheight. unfold derived_items_per_page.
    assert (0 < item_row_height config) as Hrow
      by (unfold item_row_height; destruct (is_thermal _); lia).
    assert (0 < inject_Z (item_row_height config))%Q as HrowQ
      by (unfold Qlt; cbn [Qnum Qden inject_Z]; lia).
    rewrite py_int_zero_iff.
    + split; intros H.
      * rewrite <- (Qmult_lt_r _ _ _ HrowQ) in H.
        rewrite Qmult_1_l in H.
        assert (printable_height_mm config * (6 # 10)
                / inject_Z (item_row_height config)
                * inject_Z (item_row_height config)
                == printable_height_mm config * (6 # 10))%Q as E.
        { field. intros Hz. rewrite Hz in HrowQ.
          exact (Qlt_irrefl _ HrowQ). }
        now rewrite E in H.
      * apply Qlt_shift_div_r; [exact HrowQ|].
        now rewrite Qmult_1_l.
    + apply Qle_shift_div_l; [exact HrowQ|].
      rewrite Qmult_0_l.
      apply Qmult_le_0_compat; [exact Hheight | discriminate].
Qed.

(** A cash-receipt page with 90 mm top and bottom margins keeps 9 mm of
    printable height, less than one 7 mm row at 60%. *)
Lemma calculate_page_breaks_raises_witness :
  derived_items_per_page
    (with_margins (get_default_config CASH_RECEIPT CLASSIC)
       (mkMargins 90 5 90 5)) = 0
  /\ calculate_page_breaks
       (with_margins (get_default_config CASH_RECEIPT CLASSIC)
          (mkMargins 90 5 90 5)) [1; 2; 3]%nat None
     = Raise ValueError.
Proof.
  split.
  - apply (proj2 (calculate_page_breaks_raises nat
                    (with_margins (get_default_config CASH_RECEIPT CLASSIC)
                       (mkMargins 90 5 90 5)) [] None));
      [discriminate | reflexivity].
  - apply (proj1 (calculate_page_breaks_raises nat
                    (with_margins (get_default_config CASH_RECEIPT CLASSIC)
                       (mkMargins 90 5 90 5)) [1; 2; 3]%nat None)).
    repeat split; try reflexivity. now left.
Defined.

(** X11.  A negative [items_per_page] is not rejected: when pagination is
    needed the range of batch starts is empty and the call returns no page
    at all, so every item is dropped. *)
Theorem calculate_page_breaks_negative_batch_size :
  forall (A : Type) (config : LayoutConfig) (items : list A) (k : Z),
    k < 0 ->
    needs_pagination config
      (estimate_content_height config (len items) false false) = true ->
    calculate_page_breaks config items (Some k) = Ok [].
Proof.
  intros A config items k Hk Hpag.
  unfold calculate_page_breaks. rewrite Hpag. cbn [negb].
  destruct (Z.eqb_spec k 0); [lia|].
  unfold range0.
  destruct (Z.eqb_spec k 0); [lia|].
  destruct (Z.ltb_spec k 0); [reflexivity | lia].
Qed.

Lemma calculate_page_breaks_negative_batch_size_witness :
  calculate_page_breaks (get_default_config A5 CLASSIC) (seq 0 50)
    (Some (-20)) = Ok [].
Proof.
  apply (calculate_page_breaks_negative_batch_size nat
           (get_default_config A5 CLASSIC) (seq 0 50) (-20));
    [lia | reflexivity].
Defined.

Lemma range_from_bounds k :
  0 < k ->
  forall fuel i stop,
    Forall (fun j => i <= j < stop) (range_from fuel i stop k).
Proof.
  intros Hk. induction fuel as [|fuel IH]; intros i stop; cbn [range_from];
    [constructor|].
  destruct (Z.ltb_spec i stop); [|constructor].
  constructor; [lia|].
  eapply Forall_impl; [|apply IH].
  cbv beta. intros j Hj. lia.
Qed.

(** X12.  With a positive [items_per_page = k], no page that
    [calculate_page_breaks] returns after splitting is empty and none holds
    more than [k] items. *)
Theorem calculate_page_breaks_page_sizes :
  forall (A : Type) (config : LayoutConfig) (items : list A) (k : Z)
         (pages : list (list A)),
    0 < k ->
    needs_pagination config
      (estimate_content_height config (len items) false false) = true ->
    calculate_page_breaks config items (Some k) = Ok pages ->
    Forall (fun page => 1 <= len page <= k) pages.
Proof.
  intros A config items k pages Hk Hpag Hcall.
  rewrite calculate_page_breaks_paginated in Hcall by assumption.
  injection Hcall as <-.
  apply Forall_map.
  eapply Forall_impl;
    [|apply (range_from_bounds k Hk (Z.to_nat (len items)) 0 (len items))].
  cbv beta. intros i Hi.
  rewrite slice_window, len_firstn, len_skipn by lia. lia.
Qed.

Lemma calculate_page_breaks_page_sizes_witness :
  Forall (fun page => 1 <= len page <= 20)
    [seq 0 20; seq 20 20; seq 40 10].
Proof.
  apply (calculate_page_breaks_page_sizes nat
           (get_default_config A5 CLASSIC) (seq 0 50) 20);
    [lia | reflexivity | reflexivity].
Defined.

Lemma estimate_content_height_step config n has_qr has_logo :
  (estimate_content_height config (n + 1) has_qr has_logo
   == estimate_content_height config n has_qr has_logo
      + inject_Z (item_row_height config))%Q.
Proof.
  unfold estimate_content_height.
  replace ((n + 1 + 1) * item_row_height config)
    with ((n + 1) * item_row_height config + item_row_height config)
    by ring.
  rewrite inject_Z_plus.
  destruct has_qr, has_logo; ring.
Qed.

Lemma estimate_content_height_mono config n m has_qr has_logo :
  n <= m ->
  (estimate_content_height config n has_qr has_logo
   <= estimate_content_height config m has_qr has_logo)%Q.
Proof.
  intros Hnm. unfold estimate_content_height.
  assert (inject_Z ((n + 1) * item_row_height config)
          <= inject_Z ((m + 1) * item_row_height config))%Q as Hrows.
  { rewrite <- Zle_Qle. unfold item_row_height.
    destruct (is_thermal _); lia. }
  repeat first [ apply Qplus_le_compat | apply Qle_refl | exact Hrows ];
    destruct has_qr, has_logo;
    repeat first [ apply Qplus_le_compat | apply Qle_refl | exact Hrows ].
Qed.

(** X13.  Each further item adds one row height (5 mm thermal, 7 mm paper)
    to the estimated content height, and pagination is monotone in the
    number of items: an order that needs pagination still needs it with
    more items. *)
Theorem needs_pagination_monotone :
  forall (config : LayoutConfig) (n m : Z) (has_qr has_logo : bool),
    n <= m ->
    (estimate_content_height config (n + 1) has_qr has_logo
     == estimate_content_height config n has_qr has_logo
        + inject_Z (if is_thermal (size config) then 5 else 7))%Q
    /\ (needs_pagination config
          (estimate_content_height config n has_qr has_logo) = true ->
        needs_pagination config
          (estimate_content_height config m has_qr has_logo) = true).
Proof.
  intros config n m has_qr has_logo Hnm. split.
  - rewrite estimate_content_height_step. unfold item_row_height.
    destruct (is_thermal _); reflexivity.
  - unfold needs_pagination.
    destruct (is_continuous (size config)); [discriminate|].
    rewrite !Qltb_lt. intros Hlt.
    eapply Qlt_le_trans; [exact Hlt|].
    now apply estimate_content_height_mono.
Qed.

Lemma needs_pagination_monotone_witness :
  needs_pagination (get_default_config A5 CLASSIC)
    (estimate_content_height (get_default_config A5 CLASSIC) 40 true true)
  = true.
Proof.
  apply (needs_pagination_monotone (get_default_config A5 CLASSIC)
           10 40 true true); [lia | reflexivity].
Defined.

(** ** [AutoLayoutEngine]: QR codes *)

(** X14.  On every default configuration [calculate_qr_layout] places at
    most as many codes as requested and at most 3; a request that is
    negative is passed through as the count.  Thermal sizes stack at most
    one code vertically.  The 2 x 2 grid, with codes at 80% of the
    configured size, is used exactly for three or more codes on A3, Letter
    and Legal, so its four cells always hold the count. *)
Theorem calculate_qr_layout_default :
  forall (sz : BillSize) (st : LayoutStyle) (num_qr_codes : Z),
    let config := get_default_config sz st in
    let q := calculate_qr_layout config num_qr_codes in
    count q = Z.min num_qr_codes (max_qr_codes config)
    /\ count q <= num_qr_codes
    /\ count q <= 3
    /\ (num_qr_codes <= 0 -> count q = num_qr_codes)
    /\ (is_thermal sz = true ->
        arrangement q = lit "vertical" /\ count q <= 1 /\ grid q = None
        /\ size_mm q = qr_size_mm config)
    /\ (arrangement q = lit "grid"
        <-> size_in sz [A3; LETTER; LEGAL] = true /\ 3 <= num_qr_codes)
    /\ (arrangement q = lit "grid" ->
        grid q = Some (2, 2) /\ count q <= 2 * 2
        /\ size_mm q = (qr_size_mm config * (8 # 10))%Q)
    /\ (arrangement q <> lit "grid" ->
        grid q = None /\ size_mm q = qr_size_mm config).
Proof.
  intros sz st n config q.
  assert (size config = sz) as Hsize by reflexivity.
  assert (qr_size_mm config = qr_size_mm config) as _ by reflexivity.
  assert (max_qr_codes config
          = if is_thermal sz then 1
            else if size_in sz [A3; LETTER; LEGAL] then 3 else 2) as Hmax
    by reflexivity.
  assert (is_thermal sz = true -> size_in sz [A3; LETTER; LEGAL] = false)
    as Hexcl by (destruct sz; intros H; first [discriminate H | reflexivity]).
  subst q. unfold calculate_qr_layout. rewrite Hsize, Hmax.
  clearbody config. clear Hsize Hmax.
  assert (lit "vertical" <> lit "grid") as Hv by discriminate.
  assert (lit "horizontal" <> lit "grid") as Hh by discriminate.
  destruct (is_thermal sz) eqn:Ht.
  - rewrite (Hexcl eq_refl). cbn [count arrangement grid size_mm].
    repeat split; try lia; try tauto; try discriminate;
      try (intros H; contradiction).
  - destruct (size_in sz [A3; LETTER; LEGAL]) eqn:Hl.
    + destruct (Z.leb_spec (Z.min n 3) 2);
        cbn [count arrangement grid size_mm];
        repeat split; try lia; try tauto; try discriminate;
        try (intros H; contradiction).
    + destruct (Z.leb_spec (Z.min n 2) 2); [|lia].
      cbn [count arrangement grid size_mm].
      repeat split; try lia; try tauto; try discriminate;
        try (intros H; contradiction).
Qed.

Lemma calculate_qr_layout_default_witness :
  arrangement (calculate_qr_layout (get_default_config THERMAL_58 COMPACT) 3)
  = lit "vertical"
  /\ count (calculate_qr_layout (get_default_config THERMAL_58 COMPACT) 3)
     <= 1.
Proof.
  destruct (calculate_qr_layout_default THERMAL_58 COMPACT 3)
    as (_ & _ & _ & _ & Hthermal & _).
  destruct (Hthermal eq_refl) as (Harr & Hcount & _).
  split; assumption.
Defined.

(** ** [BillFormatRegistry]: the catalogue and the default configurations *)

(** X15.  The catalogue: every size has a positive width; a size is
    continuous (height 0) exactly when its category is thermal; the paper
    and thermal lists split the 13 sizes between them without repetition. *)
Theorem catalogue_partition :
  forall s : BillSize,
    0 < width_mm s
    /\ 0 <= height_mm s
    /\ is_continuous s = is_thermal s
    /\ In s get_all_sizes
    /\ (In s get_paper_sizes <-> is_thermal s = false)
    /\ (In s get_thermal_sizes <-> is_thermal s = true)
    /\ NoDup get_all_sizes
    /\ len get_paper_sizes + len get_thermal_sizes = len get_all_sizes.
Proof.
  intros s.
  split; [destruct s; reflexivity|].
  split; [destruct s; discriminate|].
  split; [destruct s; reflexivity|].
  assert (In s BillSizeData.all) as Hin
    by (destruct s; cbn; tauto).
  split; [exact Hin|].
  unfold get_paper_sizes, get_thermal_sizes.
  rewrite !filter_In.
  split; [rewrite negb_true_iff; tauto|].
  split; [tauto|].
  split; [|reflexivity].
  unfold get_all_sizes, BillSizeData.all.
  repeat (constructor; [cbn; intuition discriminate|]).
  constructor.
Qed.

Lemma catalogue_partition_witness :
  In LEGAL get_paper_sizes /\ In THERMAL_76 get_thermal_sizes.
Proof.
  split.
  - apply (catalogue_partition LEGAL). reflexivity.
  - apply (catalogue_partition THERMAL_76). reflexivity.
Defined.

(** X16.  [chars_per_line] is 0 on every paper default configuration; on
    every thermal one it lies between 20 and 30 and is the number of whole
    2.5 mm characters in the printable width. *)
Theorem default_chars_per_line :
  forall (sz : BillSize) (st : LayoutStyle),
    let config := get_default_config sz st in
    (is_thermal sz = false -> chars_per_line config = 0)
    /\ (is_thermal sz = true ->
        20 <= chars_per_line config <= 30
        /\ (inject_Z (chars_per_line config) * (25 # 10)
            <= printable_width_mm config)%Q
        /\ (printable_width_mm config
            < inject_Z (chars_per_line config + 1) * (25 # 10))%Q).
Proof.
  intros sz st.
  destruct sz, st; vm_compute; split; intros H;
    try discriminate H; try reflexivity;
    repeat split; try discriminate; reflexivity.
Qed.

Lemma default_chars_per_line_witness :
  chars_per_line (get_default_config A4 CLASSIC) = 0
  /\ 20 <= chars_per_line (get_default_config THERMAL_80 COMPACT) <= 30.
Proof.
  split.
  - apply (default_chars_per_line A4 CLASSIC). reflexivity.
  - apply (default_chars_per_line THERMAL_80 COMPACT). reflexivity.
Defined.

(** X17.  In every default configuration the column-width fractions add
    up to exactly 1 and the columns item, qty, price and total are present;
    the description column exists only for the detailed style on paper. *)
Theorem default_column_widths :
  forall (sz : BillSize) (st : LayoutStyle),
    let widths := column_widths (get_default_config sz st) in
    (fold_right Qplus 0 (map snd widths) == 1)%Q
    /\ Forall (fun w => 0 < snd w)%Q widths
    /\ (forall key,
           In key [lit "item"; lit "qty"; lit "price"; lit "total"] ->
           dict_lookup widths key <> None)
    /\ (dict_lookup widths (lit "description") <> None
        <-> st = DETAILED /\ is_thermal sz = false).
Proof.
  intros sz st widths. subst widths.
  split; [destruct sz, st; reflexivity|].
  split; [destruct sz, st; repeat constructor|].
  split.
  - intros key Hkey. cbn [In] in Hkey.
    destruct Hkey as [<- | [<- | [<- | [<- | []]]]];
      destruct sz, st; discriminate.
  - destruct sz, st; vm_compute; split;
      first [ intros _; split; reflexivity
            | intros H; exfalso; apply H; reflexivity
            | intros [H1 H2]; discriminate
            | discriminate ].
Qed.

Lemma default_column_widths_witness :
  dict_lookup (column_widths (get_default_config A4 DETAILED)) (lit "total")
  <> None.
Proof.
  destruct (default_column_widths A4 DETAILED) as (_ & _ & Hkeys & _).
  apply Hkeys. cbn [In]. tauto.
Defined.

(** X18.  Every default configuration leaves a printable area: the
    printable width is positive and wider than one QR code; the printable
    height is positive and taller than the logo on fixed sizes, and 0 on
    continuous ones. *)
Theorem default_printable_area :
  forall (sz : BillSize) (st : LayoutStyle),
    let config := get_default_config sz st in
    (0 < printable_width_mm config)%Q
    /\ (qr_size_mm config < printable_width_mm config)%Q
    /\ (is_continuous sz = false ->
        (logo_max_height_mm config < printable_height_mm config)%Q)
    /\ (is_continuous sz = true -> printable_height_mm config = 0%Q).
Proof.
  intros sz st.
  destruct sz, st; vm_compute; repeat split;
    try reflexivity; intros H; first [discriminate H | reflexivity].
Qed.

Lemma default_printable_area_witness :
  (25 < printable_height_mm (get_default_config A4 CLASSIC))%Q
  /\ printable_height_mm (get_default_config THERMAL_57 COMPACT) = 0%Q.
Proof.
  split.
  - apply (default_printable_area A4 CLASSIC). reflexivity.
  - apply (default_printable_area THERMAL_57 COMPACT). reflexivity.
Defined.

(** ** [BillFormatRegistry]: nearest size, margins and fonts *)

(** X19.  Looking a size up by its own dimensions finds it again: every
    paper size by its width and height, every thermal size by its width,
    whatever height is passed with it. *)
Theorem find_closest_size_exact :
  forall (s : BillSize) (h : Q),
    (is_thermal s = false ->
     find_closest_size (inject_Z (width_mm s)) (inject_Z (height_mm s)) false
     = Some s)
    /\ (is_thermal s = true ->
        find_closest_size (inject_Z (width_mm s)) h true = Some s).
Proof.
  intros s h.
  destruct s; split; intros H; first [discriminate H | reflexivity].
Qed.

Lemma find_closest_size_exact_witness :
  find_closest_size 216 356 false = Some LEGAL
  /\ find_closest_size 58 1000 true = Some THERMAL_58.
Proof.
  split.
  - apply (find_closest_size_exact LEGAL 0). reflexivity.
  - apply (find_closest_size_exact THERMAL_58 1000). reflexivity.
Defined.

(** X20.  [find_closest_size] never returns [None], and the size it
    returns is of the preferred kind: thermal with [prefer_thermal], paper
    without it, however thermal-like the requested dimensions are. *)
Theorem find_closest_size_kind :
  forall (w h : Q) (prefer_thermal : bool),
    exists s,
      find_closest_size w h prefer_thermal = Some s
      /\ is_thermal s = prefer_thermal.
Proof.
  intros w h prefer_thermal. unfold find_closest_size.
  destruct prefer_thermal.
  - rewrite thermal_sizes_listed.
    destruct (closest_of_candidates w h
                [THERMAL_57; THERMAL_58; THERMAL_76; THERMAL_80])
      as (s & pre & post & Hs & Hsplit & _); [discriminate|].
    exists s. split; [exact Hs|].
    assert (In s [THERMAL_57; THERMAL_58; THERMAL_76; THERMAL_80]) as Hin
      by (rewrite Hsplit; apply in_elt).
    cbn [In] in Hin.
    destruct Hin as [<- | [<- | [<- | [<- | []]]]]; reflexivity.
  - rewrite paper_sizes_listed.
    destruct (closest_of_candidates w h
                [A5; A4; A3; HALF_LETTER; LETTER; LEGAL;
                 QUARTER_LETTER; LONG_STRIP; CASH_RECEIPT])
      as (s & pre & post & Hs & Hsplit & _); [discriminate|].
    exists s. split; [exact Hs|].
    assert (In s [A5; A4; A3; HALF_LETTER; LETTER; LEGAL;
                  QUARTER_LETTER; LONG_STRIP; CASH_RECEIPT]) as Hin
      by (rewrite Hsplit; apply in_elt).
    cbn [In] in Hin.
    repeat (destruct Hin as [<- | Hin]; [reflexivity|]).
    destruct Hin.
Qed.

(** The minimum a category resolves to. *)
Lemma category_minimum category :
  exists mn : Q,
    dict_get MIN_MARGINS category (mkMargins 5 5 5 5)
    = mkMargins mn mn mn mn
    /\ (mn = 5%Q \/ mn = 2%Q).
Proof.
  unfold dict_get, MIN_MARGINS, dict_lookup, str_eqb.
  destruct (list_eq_dec N.eq_dec category (lit "paper"));
    [exists 5%Q; split; [reflexivity | now left]|].
  destruct (list_eq_dec N.eq_dec category (lit "thermal"));
    [exists 2%Q; split; [reflexivity | now right]|].
  exists 5%Q. split; [reflexivity | now left].
Qed.

Lemma validate_margins_accepts m category mn :
  dict_get MIN_MARGINS category (mkMargins 5 5 5 5) = mkMargins mn mn mn mn ->
  (mn = 5%Q \/ mn = 2%Q) ->
  (validate_margins m category = Ok (true, [])
   <-> forall s, (mn <= side_of s m)%Q).
Proof.
  intros Hmin Hmn.
  destruct (validate_margins_against m category mn Hmin Hmn)
    as (valid & message & Hcall & Hfalse & _ & Hempty).
  rewrite Hcall. split.
  - intros [= -> ->] s. apply Qnot_lt_le. intros Hlt.
    assert (true = false) by (apply Hfalse; now exists s).
    discriminate.
  - intros Hall. destruct valid.
    + now rewrite (Hempty eq_refl).
    + destruct (proj1 Hfalse eq_refl) as [s Hs].
      exfalso. exact (Qlt_not_le _ _ Hs (Hall s)).
Qed.

(** X21.  Validity of margins is monotone: margins at least as wide on
    every side as accepted ones are accepted for the same category, and
    margins accepted for "paper" are accepted for every category string. *)
Theorem validate_margins_monotone :
  forall (m m' : Margins) (category : str),
    (top m <= top m' /\ right m <= right m'
     /\ bottom m <= bottom m' /\ left m <= left m')%Q ->
    (validate_margins m category = Ok (true, []) ->
     validate_margins m' category = Ok (true, []))
    /\ (validate_margins m (lit "paper") = Ok (true, []) ->
        validate_margins m' category = Ok (true, [])).
Proof.
  intros m m' category (Ht & Hr & Hb & Hl).
  assert (forall s, (side_of s m <= side_of s m')%Q) as Hside
    by (intros s; destruct s; assumption).
  destruct (category_minimum category) as (mn & Hmin & Hmn).
  split; intros Hvalid.
  - apply (validate_margins_accepts m' category mn Hmin Hmn). intros s.
    eapply Qle_trans; [|apply Hside].
    now apply (validate_margins_accepts m category mn Hmin Hmn).
  - apply (validate_margins_accepts m' category mn Hmin Hmn). intros s.
    eapply Qle_trans; [|apply Hside].
    apply (Qle_trans _ 5).
    + destruct Hmn as [-> | ->]; discriminate.
    + now apply (validate_margins_accepts m (lit "paper") 5 eq_refl
                   (or_introl eq_refl)).
Qed.

Lemma validate_margins_monotone_witness :
  validate_margins (mkMargins 12 15 10 10) (lit "thermal") = Ok (true, []).
Proof.
  apply (validate_margins_monotone (mkMargins 10 10 10 10)
           (mkMargins 12 15 10 10) (lit "thermal")).
  - repeat split; discriminate.
  - reflexivity.
Defined.

Lemma py_int_scaled (z : Z) (factor : Q) :
  py_int (inject_Z z * factor)
  = Z.quot (z * Qnum factor) (Zpos (Qden factor)).
Proof. destruct factor as [n d]. reflexivity. Qed.

Lemma py_int_scaled_mono (a b : Z) (factor : Q) :
  (0 <= factor)%Q -> a <= b ->
  py_int (inject_Z a * factor) <= py_int (inject_Z b * factor).
Proof.
  intros Hf Hab. rewrite !py_int_scaled.
  assert (0 <= Qnum factor) as Hn
    by (destruct factor; unfold Qle in Hf; cbn in *; lia).
  apply Z.quot_le_mono; [lia | nia].
Qed.

Lemma py_int_scaled_le (a : Z) (factor : Q) :
  (0 <= factor <= 1)%Q -> 0 <= a ->
  0 <= py_int (inject_Z a * factor) <= a.
Proof.
  intros [Hf0 Hf1] Ha. rewrite py_int_scaled.
  assert (0 <= Qnum factor <= Zpos (Qden factor)) as Hn
    by (destruct factor; unfold Qle in *; cbn in *; lia).
  split.
  - apply Z.quot_pos; nia.
  - apply Z.quot_le_upper_bound; nia.
Qed.

Lemma py_int_scaled_one (a : Z) : py_int (inject_Z a * 1) = a.
Proof.
  rewrite py_int_scaled. cbn [Qnum Qden]. rewrite Z.mul_1_r.
  apply Z.quot_1_r.
Qed.

(** X22.  [FontSettings.scale] keeps the two font names.  A factor of 1
    changes nothing; a factor that is not negative keeps the five sizes in
    the order they were in, and a factor between 0 and 1 never enlarges a
    non-negative size nor makes it negative. *)
Theorem scale_font_sizes :
  forall (f : FontSettings) (factor : Q),
    mono_font (scale f factor) = mono_font f
    /\ sans_font (scale f factor) = sans_font f
    /\ scale f 1 = f
    /\ ((0 <= factor)%Q ->
        footer_size f <= item_size f <= base_size f ->
        base_size f <= header_size f <= title_size f ->
        footer_size (scale f factor) <= item_size (scale f factor)
        /\ item_size (scale f factor) <= base_size (scale f factor)
        /\ base_size (scale f factor) <= header_size (scale f factor)
        /\ header_size (scale f factor) <= title_size (scale f factor))
    /\ ((0 <= factor <= 1)%Q ->
        0 <= footer_size f ->
        footer_size f <= item_size f <= base_size f ->
        base_size f <= header_size f <= title_size f ->
        0 <= footer_size (scale f factor) <= footer_size f
        /\ item_size (scale f factor) <= item_size f
        /\ base_size (scale f factor) <= base_size f
        /\ header_size (scale f factor) <= header_size f
        /\ title_size (scale f factor) <= title_size f).
Proof.
  intros f factor.
  split; [reflexivity|]. split; [reflexivity|].
  split.
  - destruct f. unfold scale.
    cbn [base_size title_size header_size item_size footer_size
         mono_font sans_font].
    now rewrite !py_int_scaled_one.
  - unfold scale.
    cbn [base_size title_size header_size item_size footer_size].
    split.
    + intros Hf [H1 H2] [H3 H4].
      repeat split; apply py_int_scaled_mono; assumption.
    + intros Hf H0 [H1 H2] [H3 H4].
      repeat split; try (apply py_int_scaled_le; [exact Hf | lia]).
Qed.

Lemma scale_font_sizes_witness :
  footer_size (scale (mkFontSettings 10 16 12 9 8 [] []) (85 # 100))
  <= item_size (scale (mkFontSettings 10 16 12 9 8 [] []) (85 # 100)).
Proof.
  destruct (scale_font_sizes (mkFontSettings 10 16 12 9 8 [] []) (85 # 100))
    as (_ & _ & _ & Horder & _).
  apply Horder; [discriminate | cbn; lia | cbn; lia].
Defined.

(** X23.  In every default configuration the scaled font sizes are in the
    order footer, item, base, header, title, from at least 5 pt to at most
    19 pt, and the fonts are Courier and Helvetica. *)
Theorem default_font_sizes :
  forall (sz : BillSize) (st : LayoutStyle),
    let f := fonts (get_default_config sz st) in
    5 <= footer_size f
    /\ footer_size f <= item_size f
    /\ item_size f <= base_size f
    /\ base_size f <= header_size f
    /\ header_size f <= title_size f
    /\ title_size f <= 19
    /\ mono_font f = lit "Courier"
    /\ sans_font f = lit "Helvetica".
Proof.
  intros sz st.
  destruct sz; vm_compute; repeat split; discriminate.
Qed.

(** * The float comparisons in the code's own arithmetic *)

Module FloatingProperties.

Import Floating.

(** ** The order laws hold of binary64 *)

Ltac sf_order :=
  unfold SpecFloat.SFltb, SpecFloat.SFleb, SpecFloat.SFcompare;
  repeat match goal with x : SpecFloat.spec_float |- _ => destruct x end;
  repeat match goal with b : bool |- _ => destruct b end;
  try discriminate; try reflexivity;
  change (PosDef.Pos.compare_cont Eq) with Pos.compare;
  repeat match goal with
    | |- context [Z.compare ?a ?b] => destruct (Z.compare_spec a b)
    end;
  try discriminate; try reflexivity; try lia; subst;
  repeat match goal with
    | |- context [Pos.compare ?a ?b] => destruct (Pos.compare_spec a b)
    end;
  cbn; try discriminate; try reflexivity; try lia.

Lemma SFltb_trans x y z :
  SpecFloat.SFltb x y = true -> SpecFloat.SFltb y z = true ->
  SpecFloat.SFltb x z = true.
Proof. sf_order. Qed.

Lemma SFltb_not_le x y :
  SpecFloat.SFltb x y = true -> SpecFloat.SFleb y x = false.
Proof. sf_order. Qed.

Lemma SFltb_below a b c :
  SpecFloat.SFltb c b = false -> SpecFloat.SFltb a b = true ->
  SpecFloat.SFleb c a = false.
Proof. sf_order. Qed.

Lemma binary64_ordered : Ordered PrimFloat.float.
Proof.
  constructor; cbn [flt fle binary64]; intros *;
    rewrite ?FloatAxioms.ltb_spec, ?FloatAxioms.leb_spec.
  - apply SFltb_trans.
  - apply SFltb_not_le.
  - apply SFltb_below.
Qed.

(** ** The search loop over any ordered arithmetic *)

Section Loop.

Context {F : Type} `{Ordered F}.
Variables w h : F.

Lemma closest_loop_raise sizes e :
  fold_left (closest_step w h) sizes (Raise e) = Raise e.
Proof. induction sizes as [|a rest IH]; [reflexivity | exact IH]. Qed.

(** From a state [(best0, m0)] the loop either raises what a distance
    raised, or returns with every distance computed: unchanged when no
    candidate was below [m0], else on the first candidate of least
    distance. *)
Lemma closest_loop :
  forall sizes best0 m0,
    match fold_left (closest_step w h) sizes (Ok (best0, m0)) with
    | Raise e => exists x, In x sizes /\ diff_of x w h = Raise e
    | Ok (best, m) =>
        (forall x, In x sizes -> exists d, diff_of x w h = Ok d)
        /\ ((best = best0 /\ m = m0
             /\ forall x d, In x sizes -> diff_of x w h = Ok d ->
                            flt d m0 = false)
            \/ (exists s pre post ds,
                   sizes = pre ++ s :: post
                   /\ best = Some s /\ m = ds
                   /\ diff_of s w h = Ok ds
                   /\ flt ds m0 = true
                   /\ (forall x d, In x pre -> diff_of x w h = Ok d ->
                                   fle d ds = false)
                   /\ (forall x d, In x post -> diff_of x w h = Ok d ->
                                   flt d ds = false)))
    end.
Proof.
  induction sizes as [|a rest IH]; intros best0 m0; cbn [fold_left].
  - split; [intros x []|]. left.
    split; [reflexivity|]. split; [reflexivity|]. intros x d [].
  - unfold closest_step at 2.
    destruct (diff_of a w h) as [da|e] eqn:Ea.
    2:{ rewrite closest_loop_raise. exists a. split; [now left | exact Ea]. }
    destruct (flt da m0) eqn:Elt.
    + specialize (IH (Some a) da).
      destruct (fold_left (closest_step w h) rest (Ok (Some a, da)))
        as [[best m]|e].
      2:{ destruct IH as (x & Hx & Hr). exists x. split; [now right|exact Hr]. }
      destruct IH as [Hall Hcase].
      split.
      { intros x [<- | Hx]; [now exists da | now apply Hall]. }
      right.
      destruct Hcase as [(-> & -> & Hrest)
                        | (s & pre & post & ds & -> & -> & -> & Hs & Hlt
                           & Hpre & Hpost)].
      * exists a, [], rest, da.
        split; [reflexivity|]. split; [reflexivity|]. split; [reflexivity|].
        split; [exact Ea|]. split; [exact Elt|].
        split; [intros x d []| exact Hrest].
      * exists s, (a :: pre), post, ds.
        split; [reflexivity|]. split; [reflexivity|]. split; [reflexivity|].
        split; [exact Hs|].
        split; [exact (flt_trans _ _ _ Hlt Elt)|].
        split; [|exact Hpost].
        intros x d [<- | Hx] Hd; [|now apply (Hpre x)].
        rewrite Ea in Hd. injection Hd as <-.
        now apply flt_not_le.
    + specialize (IH best0 m0).
      destruct (fold_left (closest_step w h) rest (Ok (best0, m0)))
        as [[best m]|e].
      2:{ destruct IH as (x & Hx & Hr). exists x. split; [now right|exact Hr]. }
      destruct IH as [Hall Hcase].
      split.
      { intros x [<- | Hx]; [now exists da | now apply Hall]. }
      destruct Hcase as [(-> & -> & Hrest)
                        | (s & pre & post & ds & -> & -> & -> & Hs & Hlt
                           & Hpre & Hpost)].
      * left. split; [reflexivity|]. split; [reflexivity|].
        intros x d [<- | Hx] Hd; [|now apply (Hrest x)].
        rewrite Ea in Hd. now injection Hd as <-.
      * right. exists s, (a :: pre), post, ds.
        split; [reflexivity|]. split; [reflexivity|]. split; [reflexivity|].
        split; [exact Hs|]. split; [exact Hlt|].
        split; [|exact Hpost].
        intros x d [<- | Hx] Hd; [|now apply (Hpre x)].
        rewrite Ea in Hd. injection Hd as <-.
        exact (flt_below _ _ _ Elt Hlt).
Qed.

End Loop.

Lemma thermal_diff_of {F : Type} `{Arith F} (w h : F) x :
  In x get_thermal_sizes ->
  diff_of x w h = Ok (fabs (fsub (of_int (width_mm x)) w)).
Proof.
  rewrite thermal_sizes_listed. cbn [In].
  intros [<- | [<- | [<- | [<- | []]]]]; reflexivity.
Qed.

(** C5.  In the arithmetic of the code, with the distances as the code
    computes them: [find_closest_size] raises only what a distance
    computation raised, and otherwise returns the first candidate of least
    distance in enumeration order: for every candidate before it [d <= ds]
    is false, for every candidate after it [d < ds] is false, so of two
    candidates at the same computed distance the earlier wins ([None] only
    when no distance is below infinity).  A thermal candidate is measured
    by [abs(width - width_mm)], which cannot raise and ignores the height;
    a paper candidate by [sqrt((width - width_mm)**2 + (height -
    height_mm)**2)].  In binary64, 210 x 297 without the thermal preference
    gives A4, at distance zero. *)
Theorem find_closest_size_first_of_least :
  (forall (F : Type) (A : Arith F) (O : Ordered F) (w h : F)
          (prefer_thermal : bool),
      let candidates :=
        if prefer_thermal then get_thermal_sizes else get_paper_sizes in
      match find_closest_size w h prefer_thermal with
      | Raise e => exists x, In x candidates /\ diff_of x w h = Raise e
      | Ok None =>
          forall x, In x candidates ->
                    exists d, diff_of x w h = Ok d /\ flt d finf = false
      | Ok (Some s) =>
          exists pre post ds,
            candidates = pre ++ s :: post
            /\ diff_of s w h = Ok ds
            /\ (forall x, In x pre ->
                          exists d, diff_of x w h = Ok d /\ fle d ds = false)
            /\ (forall x, In x post ->
                          exists d, diff_of x w h = Ok d /\ flt d ds = false)
      end)
  /\ (forall (F : Type) (A : Arith F) (w h : F) x,
         In x get_thermal_sizes ->
         diff_of x w h = Ok (fabs (fsub (of_int (width_mm x)) w)))
  /\ (forall (F : Type) (A : Arith F) (w h : F) x,
         In x get_paper_sizes ->
         diff_of x w h
         = match fsquare (fsub (of_int (width_mm x)) w) with
           | Raise e => Raise e
           | Ok dw2 =>
               match fsquare (fsub (of_int (height_mm x)) h) with
               | Raise e => Raise e
               | Ok dh2 => fsqrt (fadd dw2 dh2)
               end
           end)
  /\ (forall (F : Type) (A : Arith F) (O : Ordered F) (w h h' : F),
         find_closest_size w h true = find_closest_size w h' true
         /\ exists best, find_closest_size w h true = Ok best)
  /\ find_closest_size (F := PrimFloat.float) (of_int 210) (of_int 297) false
     = Ok (Some A4)
  /\ diff_of (F := PrimFloat.float) A4 (of_int 210) (of_int 297)
     = Ok PrimFloat.zero.
Proof.
  assert (forall (F : Type) (A : Arith F) (O : Ordered F) (w h : F)
                 (prefer_thermal : bool),
             let candidates :=
               if prefer_thermal then get_thermal_sizes
               else get_paper_sizes in
             match find_closest_size w h prefer_thermal with
             | Raise e => exists x, In x candidates /\ diff_of x w h = Raise e
             | Ok None =>
                 forall x, In x candidates ->
                           exists d, diff_of x w h = Ok d
                                     /\ flt d finf = false
             | Ok (Some s) =>
                 exists pre post ds,
                   candidates = pre ++ s :: post
                   /\ diff_of s w h = Ok ds
                   /\ (forall x, In x pre ->
                                 exists d, diff_of x w h = Ok d
                                           /\ fle d ds = false)
                   /\ (forall x, In x post ->
                                 exists d, diff_of x w h = Ok d
                                           /\ flt d ds = false)
             end) as Hloop.
  { intros F A O w h prefer_thermal candidates.
    unfold find_closest_size. fold candidates.
    assert (match candidates with
            | [] => get_all_sizes
            | _ :: _ => candidates
            end = candidates) as -> by (now destruct prefer_thermal).
    pose proof (closest_loop w h candidates None finf) as Hfold.
    destruct (fold_left (closest_step w h) candidates (Ok (None, finf)))
      as [[best m]|e]; [|exact Hfold].
    destruct Hfold as [Hall [(-> & -> & Hnone)
                            | (s & pre & post & ds & Hsplit & -> & -> & Hs
                               & _ & Hpre & Hpost)]].
    - intros x Hx. destruct (Hall x Hx) as [d Hd].
      exists d. split; [exact Hd | now apply (Hnone x)].
    - exists pre, post, ds. split; [exact Hsplit|]. split; [exact Hs|].
      split; intros x Hx;
        (destruct (Hall x) as [d Hd];
         [rewrite Hsplit, in_app_iff; cbn [In]; tauto|]);
        exists d; (split; [exact Hd|]).
      + now apply (Hpre x).
      + now apply (Hpost x). }
  split; [exact Hloop|].
  split; [intros F A w h x; apply thermal_diff_of|].
  split.
  { intros F A w h x Hx. rewrite paper_sizes_listed in Hx. cbn [In] in Hx.
    repeat (destruct Hx as [<- | Hx]; [reflexivity|]). destruct Hx. }
  split; [|split; reflexivity].
  intros F A O w h h'. split; [reflexivity|].
  pose proof (Hloop F A O w h true) as Hcall. cbv zeta in Hcall.
  destruct (find_closest_size w h true) as [best|e]; [now exists best|].
  destruct Hcall as (x & Hx & Hraise).
  rewrite (thermal_diff_of w h x Hx) in Hraise. discriminate.
Qed.

(** The request 131.7 x 196.6 is, in doubles, at the same computed distance
    21.100947846009205 from A5 and from Half Letter; A5 comes first. *)
Lemma find_closest_size_first_of_least_witness :
  exists pre post ds,
    get_paper_sizes = pre ++ A5 :: post
    /\ diff_of A5 (b64_of_decimal (1317 # 10)) (b64_of_decimal (1966 # 10))
       = Ok ds
    /\ (forall x, In x pre ->
                  exists d,
                    diff_of x (b64_of_decimal (1317 # 10))
                      (b64_of_decimal (1966 # 10)) = Ok d
                    /\ PrimFloat.leb d ds = false)
    /\ (forall x, In x post ->
                  exists d,
                    diff_of x (b64_of_decimal (1317 # 10))
                      (b64_of_decimal (1966 # 10)) = Ok d
                    /\ PrimFloat.ltb d ds = false).
Proof.
  exact (proj1 find_closest_size_first_of_least PrimFloat.float binary64
           binary64_ordered (b64_of_decimal (1317 # 10))
           (b64_of_decimal (1966 # 10)) false).
Defined.

(** C6.  In the arithmetic of the code: [needs_pagination] is false on
    every continuous size, and so on every thermal size, whatever the
    content height; on a fixed size the printable height is the page height
    less the sum of the top and bottom margins, and the answer is true
    exactly when the content height is above the float product of the
    printable height and the page-break threshold. *)
Theorem needs_pagination_float_threshold :
  forall (F : Type) (A : Arith F) (config : LayoutConfig F)
         (content_height_mm : F),
    (is_continuous (size config) = true ->
     needs_pagination config content_height_mm = false)
    /\ (is_thermal (size config) = true ->
        needs_pagination config content_height_mm = false)
    /\ (is_continuous (size config) = false ->
        printable_height_mm config
        = fsub (of_int (height_mm (size config)))
            (fadd (top (margins config)) (bottom (margins config)))
        /\ (needs_pagination config content_height_mm = true
            <-> flt (fmul (printable_height_mm config)
                       (page_break_threshold config))
                  content_height_mm = true)).
Proof.
  intros F A config content_height_mm.
  unfold needs_pagination, printable_height_mm.
  rewrite <- is_continuous_is_thermal.
  destruct (is_continuous (size config)).
  - repeat split; try reflexivity; discriminate.
  - repeat split; try discriminate; try reflexivity; auto.
Qed.

(** At the page-break boundary the product is the rounded one: 249 * 0.85
    is the double 211.65000000000001, so a Letter page does not break at
    211.65, and 273 * 0.85 is 232.04999999999998, so an A4 page breaks at
    232.05; a thermal roll never breaks. *)
Lemma needs_pagination_float_threshold_witness :
  needs_pagination (floating_default_config (F := PrimFloat.float)
                      THERMAL_80 COMPACT) (b64_of_int 1000) = false
  /\ needs_pagination (floating_default_config (F := PrimFloat.float)
                         LETTER CLASSIC) (b64_of_decimal (21165 # 100))
     = false
  /\ needs_pagination (floating_default_config (F := PrimFloat.float)
                         A4 CLASSIC) (b64_of_decimal (23205 # 100))
     = true.
Proof.
  split; [|split].
  - apply (needs_pagination_float_threshold PrimFloat.float binary64
             (floating_default_config THERMAL_80 COMPACT)
             (b64_of_int 1000)).
    reflexivity.
  - destruct (needs_pagination_float_threshold PrimFloat.float binary64
                (floating_default_config LETTER CLASSIC)
                (b64_of_decimal (21165 # 100))) as (_ & _ & Hfixed).
    destruct (Hfixed eq_refl) as [_ Hiff].
    apply not_true_is_false. intros Htrue. apply Hiff in Htrue.
    vm_compute in Htrue. discriminate Htrue.
  - apply (needs_pagination_float_threshold PrimFloat.float binary64
             (floating_default_config A4 CLASSIC)
             (b64_of_decimal (23205 # 100))); reflexivity.
Defined.

(** Requests at the same decimal distance from two sizes: the computed
    doubles decide.  They are equal for A5 and Half Letter, so the earlier
    A5 is returned; Long Strip is below Quarter Letter in the last place,
    so the later Long Strip is returned. *)
Example find_closest_size_in_doubles :
  find_closest_size (b64_of_decimal (1317 # 10)) (b64_of_decimal (1966 # 10))
    false = Ok (Some A5)
  /\ find_closest_size (b64_of_decimal (626 # 10)) (b64_of_decimal (2506 # 10))
       false = Ok (Some LONG_STRIP)
  /\ find_closest_size (b64_of_int 215) (b64_of_int 300) false = Ok (Some A4)
  /\ find_closest_size (b64_of_int 78) (b64_of_int 0) true
     = Ok (Some THERMAL_76).
Proof. repeat split. Qed.

End FloatingProperties.
